(** * Userman: the session guards and CRUD routes of server/src/server.ts

    A shallow embedding of the Express application: the two middleware
    guards, the eight route handlers, the promise wrapper [query] around the
    MySQL driver, and the table [userlist] the six SQL statements act on.
    The handlers are given on bodies of the type they declare, and [update]
    also on the body as the JSON parser delivers it, with the driver's
    formatting of the values bound to the statement.
    A request is run against a [World] (the session of the request, the
    table, and the log of statements handed to the driver) and yields an
    outcome together with the next world. *)

From Stdlib Require Import ZArith List String Ascii Bool Lia DecimalString.
Import ListNotations.

Local Open Scope Z_scope.

(** ** JavaScript values the program handles *)

(** A JavaScript number as this program meets it: ordinals and row ids are
    integers, and [Number(...)] of something that is no numeral is [NaN]. *)
Inductive JsNumber : Type :=
| Num (z : Z)
| NaN.

(** [a > b] for an integer [a]; every comparison with [NaN] is false. *)
Definition js_gt (a : Z) (b : JsNumber) : bool :=
  match b with
  | Num z => a >? z
  | NaN => false
  end.

(** A string-typed value read from [req.body]: [None] is [undefined]. *)
Definition JsString : Type := option string.

(** Truthiness, as tested by [if (firstName && lastName)]: [undefined] and
    the empty string are falsy. *)
Definition truthy (v : JsString) : bool :=
  match v with
  | Some s => negb (String.eqb s EmptyString)
  | None => false
  end.

(** A string-typed value inside a template literal. *)
Definition template (v : JsString) : string :=
  match v with
  | Some s => s
  | None => "undefined"%string
  end.

(** [new Date(v)]: the date denoted by a string, or Invalid Date for
    [undefined]. *)
Inductive JsDate : Type :=
| DateOf (text : string)
| InvalidDate.

Definition new_Date (v : JsString) : JsDate :=
  match v with
  | Some s => DateOf s
  | None => InvalidDate
  end.

Inductive JsError : Type :=
| TypeError (message : string).

(** What the driver hands back for the [rights] column. *)
Inductive DbValue : Type :=
| DbInt (z : Z)
| DbText (s : string)
| DbNull.

(** ** Request bodies as the JSON parser delivers them

    [express.json()] hands the handlers whatever JSON the client sent: the
    string annotations of the handlers are erased when the server runs.  A
    property read from [req.body] is any of the values below; numbers are
    the integral ones. *)
#[local] Set Warnings "-register-all".
Inductive JsValue : Type :=
| VUndefined
| VNull
| VBool (b : bool)
| VNumber (z : Z)
| VString (s : string)
| VArray (elements : list JsValue)
| VObject (members : list (string * JsValue)).

(** Truthiness of a value: [undefined], [null], [false], [0] and the empty
    string are falsy; every array and every object is truthy. *)
Definition truthy_value (v : JsValue) : bool :=
  match v with
  | VUndefined | VNull => false
  | VBool b => b
  | VNumber z => negb (z =? 0)
  | VString s => negb (String.eqb s EmptyString)
  | VArray _ | VObject _ => true
  end.

Definition is_object (v : JsValue) : bool :=
  match v with
  | VObject _ => true
  | _ => false
  end.

Definition decimal (z : Z) : string := NilZero.string_of_int (Z.to_int z).

(** A value inside a template literal: an array joins its elements with
    commas, [null] and [undefined] elements giving nothing. *)
Fixpoint String_value (v : JsValue) : string :=
  match v with
  | VUndefined => "undefined"
  | VNull => "null"
  | VBool true => "true"
  | VBool false => "false"
  | VNumber z => decimal z
  | VString s => s
  | VArray elements =>
      (fix join (l : list JsValue) : string :=
         match l with
         | [] => ""
         | x :: rest =>
             let first :=
               match x with
               | VUndefined | VNull => ""
               | _ => String_value x
               end in
             match rest with
             | [] => first
             | _ :: _ => first ++ "," ++ join rest
             end
         end) elements
  | VObject _ => "[object Object]"
  end%string.

(** ** The model classes imported by the server *)

Module Rights.
(** Modelled from the spec: model/rights.ts is not among the sources.
    The spec describes a small closed ordinal enum with User below Admin;
    a TypeScript numeric enum numbers its members from zero. *)
Inductive t : Type :=
| User
| Admin.

Definition ordinal (r : t) : Z :=
  match r with
  | User => 0
  | Admin => 1
  end.
End Rights.

Module User.
(** Modelled from the spec: model/user.ts is not among the sources.
    The fields are those of the constructor calls
    [new User(id, username, firstName, lastName, creationTime, rights)]
    of the server, in that order; there is no password field. *)
Record t : Type := new {
  id : Z;
  username : JsString;
  firstName : JsString;
  lastName : JsString;
  creationTime : JsDate;
  rights : DbValue
}.
End User.

(** ** The table [userlist] *)

Module Row.
(** A row of [userlist], with the columns named by the INSERT statement
    and the server-generated [id].  There is no column [time]. *)
Record t : Type := make {
  id : Z;
  creationTime : string;
  username : JsString;
  password : string;
  firstName : JsString;
  lastName : JsString;
  rights : DbValue
}.

Definition set_names (f l : JsString) (r : t) : t :=
  make (id r) (creationTime r) (username r) (password r) f l (rights r).

Definition set_password (p : string) (r : t) : t :=
  make (id r) (creationTime r) (username r) p (firstName r) (lastName r)
       (rights r).

(** [row.time]: a property no row has. *)
Definition time (r : t) : JsString := None.
End Row.

(** The snapshot built by POST /login: its date is [new Date(users[0].time)]. *)
Definition login_user (row : Row.t) : User.t :=
  User.new (Row.id row) (Row.username row) (Row.firstName row)
           (Row.lastName row) (new_Date (Row.time row)) (Row.rights row).

(** The snapshot built by GET /user/:userId and GET /users: its date is
    [new Date(row.creationTime)]. *)
Definition row_user (row : Row.t) : User.t :=
  User.new (Row.id row) (Row.username row) (Row.firstName row)
           (Row.lastName row) (new_Date (Some (Row.creationTime row)))
           (Row.rights row).

Record Store : Type := {
  userlist : list Row.t;
  auto_increment : Z
}.

Record MysqlError : Type := {
  code : string;
  fatal : bool
}.

Record OkPacket : Type := {
  affectedRows : Z;
  insertId : Z
}.

(** The six statements of the server with the data bound to their
    placeholders, indexed by the type of their result. *)
Inductive Statement : Type -> Type :=
| SelectLogin (username : JsString) (password : string)
  : Statement (list Row.t)
| InsertUser (creationTime : string) (username : JsString) (password : string)
             (firstName lastName : JsString) (rights : Rights.t)
  : Statement OkPacket
| SelectById (userId : JsNumber) : Statement (list Row.t)
| UpdateNames (firstName lastName : JsString) (userId : JsNumber)
  : Statement OkPacket
| DeleteById (userId : JsNumber) : Statement OkPacket
| SelectAll : Statement (list Row.t).

Definition sql {A : Type} (s : Statement A) : string :=
  match s with
  | SelectLogin _ _ =>
      "SELECT * FROM userlist WHERE username = ? AND password = ?;"
  | InsertUser _ _ _ _ _ _ =>
      "INSERT INTO userlist (creationTime, username, password, firstName, lastName, rights) VALUES (?, ?, ?, ?, ?, ?);"
  | SelectById _ => "SELECT * FROM userlist WHERE id = ?;"
  | UpdateNames _ _ _ =>
      "UPDATE userlist SET firstName = ?, lastName = ? WHERE id = ?;"
  | DeleteById _ => "DELETE FROM userlist WHERE id = ?;"
  | SelectAll => "SELECT * FROM userlist;"
  end%string.

(** The UPDATE of PUT /user/:userId with the values of the body bound as
    they came. *)
Inductive ValuesStatement : Type :=
| UpdateValues (firstName lastName : JsValue) (userId : JsNumber).

Inductive Issued : Type :=
| Issue {A : Type} (s : Statement A)
| IssueValues (s : ValuesStatement).

(** The two shapes in which the driver calls back: [(null, result)], and
    [(err, result)] where [result] is [undefined] ([None]) for a single
    statement. *)
Inductive DriverReply (A : Type) : Type :=
| Success (result : A)
| Failure (err : MysqlError) (result : option A).
Arguments Success {A} result.
Arguments Failure {A} err result.

Definition ER_DUP_ENTRY : MysqlError :=
  {| code := "ER_DUP_ENTRY"; fatal := false |}.
Definition ER_BAD_FIELD_ERROR : MysqlError :=
  {| code := "ER_BAD_FIELD_ERROR"; fatal := false |}.

(** [username = ?]: a comparison with NULL matches nothing. *)
Definition same_username (u v : JsString) : bool :=
  match u, v with
  | Some a, Some b => String.eqb a b
  | _, _ => false
  end.

Definition matches_login (u : JsString) (p : string) (r : Row.t) : bool :=
  same_username (Row.username r) u && String.eqb (Row.password r) p.

Definition has_id (z : Z) (r : Row.t) : bool := Row.id r =? z.

Definition count_id (z : Z) (rows : list Row.t) : Z :=
  Z.of_nat (List.length (filter (has_id z) rows)).

(** Modelled from the spec: the schema of [userlist] is not among the
    sources.  The spec has the store enforce unique usernames and generate
    the ids; a numeric literal bound to [rights] is stored as it is. *)
Definition insert_user (ct : string) (u : JsString) (p : string)
    (f l : JsString) (r : Rights.t) (db : Store)
  : DriverReply OkPacket * Store :=
  if existsb (fun row => same_username (Row.username row) u) (userlist db)
  then (Failure ER_DUP_ENTRY None, db)
  else (Success {| affectedRows := 1; insertId := auto_increment db |},
        {| userlist :=
             userlist db ++
             [Row.make (auto_increment db) ct u p f l
                       (DbInt (Rights.ordinal r))];
           auto_increment := auto_increment db + 1 |}).

(** [WHERE id = ?] with NaN bound is the unknown identifier [NaN]: the
    statement is refused and the table is not touched. *)
Definition select_by_id (n : JsNumber) (db : Store)
  : DriverReply (list Row.t) * Store :=
  match n with
  | Num z => (Success (filter (has_id z) (userlist db)), db)
  | NaN => (Failure ER_BAD_FIELD_ERROR None, db)
  end.

Definition update_names (f l : JsString) (n : JsNumber) (db : Store)
  : DriverReply OkPacket * Store :=
  match n with
  | Num z =>
      (Success {| affectedRows := count_id z (userlist db); insertId := 0 |},
       {| userlist :=
            map (fun r => if has_id z r then Row.set_names f l r else r)
                (userlist db);
          auto_increment := auto_increment db |})
  | NaN => (Failure ER_BAD_FIELD_ERROR None, db)
  end.

Definition delete_by_id (n : JsNumber) (db : Store)
  : DriverReply OkPacket * Store :=
  match n with
  | Num z =>
      (Success {| affectedRows := count_id z (userlist db); insertId := 0 |},
       {| userlist := filter (fun r => negb (has_id z r)) (userlist db);
          auto_increment := auto_increment db |})
  | NaN => (Failure ER_BAD_FIELD_ERROR None, db)
  end.

Definition execute {A : Type} (s : Statement A) (db : Store)
  : DriverReply A * Store :=
  match s in Statement A return DriverReply A * Store with
  | SelectLogin u p => (Success (filter (matches_login u p) (userlist db)), db)
  | InsertUser ct u p f l r => insert_user ct u p f l r db
  | SelectById n => select_by_id n db
  | UpdateNames f l n => update_names f l n db
  | DeleteById n => delete_by_id n db
  | SelectAll => (Success (userlist db), db)
  end.

(** ** The driver's formatting of bound values

    [database.query(sql, data)] replaces each placeholder by the escaped
    value, with the driver's default of not stringifying objects: a scalar
    becomes a literal, an array the list of its escaped elements, and an
    object the list [`key` = value, ...] of its members. *)
Inductive SqlLiteral : Type :=
| SqlNull
| SqlBool (b : bool)
| SqlNumber (z : Z)
| SqlString (s : string).

(** An element of a list: a literal, or the parenthesised list that a
    nested array becomes. *)
Inductive SqlItem : Type :=
| Literal (l : SqlLiteral)
| Parenthesised (items : list SqlItem).

(** The escaped form of an element of an array, for which objects are
    stringified. *)
Fixpoint item (v : JsValue) : SqlItem :=
  match v with
  | VUndefined | VNull => Literal SqlNull
  | VBool b => Literal (SqlBool b)
  | VNumber z => Literal (SqlNumber z)
  | VString s => Literal (SqlString s)
  | VArray elements =>
      Parenthesised
        ((fix arrayToList (l : list JsValue) : list SqlItem :=
            match l with
            | [] => []
            | x :: rest => item x :: arrayToList rest
            end) elements)
  | VObject _ => Literal (SqlString "[object Object]")
  end.

(** The escaped form of a member of an object, and of a bound value that
    is no object: the items that stand in its place. *)
Definition escape (v : JsValue) : list SqlItem :=
  match v with
  | VArray elements => map item elements
  | _ => [item v]
  end.

(** The value of an item where one value is expected: [(x)] is [x]; an
    empty or a longer parenthesised list is refused. *)
Fixpoint item_value (i : SqlItem) : option SqlLiteral :=
  match i with
  | Literal l => Some l
  | Parenthesised [x] => item_value x
  | Parenthesised _ => None
  end.

(** Items after [column =]: exactly one is an expression, anything else
    is no statement. *)
Definition single_value (items : list SqlItem) : option SqlLiteral :=
  match items with
  | [i] => item_value i
  | _ => None
  end.

Inductive SqlExpr : Type :=
| Const (l : SqlLiteral)
| Equals (column : string) (l : SqlLiteral).

(** The members of an object after the first: [`key` = value]. *)
Fixpoint member_assignments (members : list (string * JsValue))
  : option (list (string * SqlExpr)) :=
  match members with
  | [] => Some []
  | (k, v) :: rest =>
      match single_value (escape v), member_assignments rest with
      | Some l, Some more => Some ((k, Const l) :: more)
      | _, _ => None
      end
  end.

(** How [column = ?] reads in a SET list once the placeholder is replaced
    by [v]: an object [{k1: v1, k2: v2, ...}] gives
    [column = `k1` = v1, `k2` = v2, ...], that is the comparison of [k1]
    with [v1] assigned to [column], followed by assignments to the other
    keys.  [None] is a text that is no SET list. *)
Definition set_clause (column : string) (v : JsValue)
  : option (list (string * SqlExpr)) :=
  match v with
  | VObject [] => None
  | VObject ((k, v1) :: rest) =>
      match single_value (escape v1), member_assignments rest with
      | Some l, Some more => Some ((column, Equals k l) :: more)
      | _, _ => None
      end
  | _ => option_map (fun l => [(column, Const l)]) (single_value (escape v))
  end.

(** The columns of [userlist]; identifiers are compared without case.  A
    qualified name (a key with a dot) is not resolved. *)
Inductive Column : Type :=
| Cid
| CcreationTime
| Cusername
| Cpassword
| CfirstName
| ClastName
| Crights.

Definition lower (c : ascii) : ascii :=
  let n := nat_of_ascii c in
  if Nat.leb 65 n && Nat.leb n 90 then ascii_of_nat (n + 32) else c.

Fixpoint lowercase (s : string) : string :=
  match s with
  | EmptyString => EmptyString
  | String c s' => String (lower c) (lowercase s')
  end.

Definition resolve (name : string) : option Column :=
  let n := lowercase name in
  if String.eqb n "id" then Some Cid
  else if String.eqb n "creationtime" then Some CcreationTime
  else if String.eqb n "username" then Some Cusername
  else if String.eqb n "password" then Some Cpassword
  else if String.eqb n "firstname" then Some CfirstName
  else if String.eqb n "lastname" then Some ClastName
  else if String.eqb n "rights" then Some Crights
  else None.

Inductive Assigned : Type :=
| Value (l : SqlLiteral)
| Compared (c : Column) (l : SqlLiteral).

Fixpoint resolve_all (assignments : list (string * SqlExpr))
  : option (list (Column * Assigned)) :=
  match assignments with
  | [] => Some []
  | (name, e) :: rest =>
      let target :=
        match e with
        | Const l => Some (Value l)
        | Equals k l => option_map (fun c => Compared c l) (resolve k)
        end in
      match resolve name, target, resolve_all rest with
      | Some c, Some a, Some more => Some ((c, a) :: more)
      | _, _, _ => None
      end
  end.

(** What the sources do not fix about the database server: its comparison
    of a cell with a literal ([None] is NULL), and the integer it reads
    from a string assigned to [id] ([None] is a refusal). *)
Record MySQL : Type := {
  sql_equal : DbValue -> SqlLiteral -> option bool;
  sql_integer : string -> option Z
}.

Definition cell (c : Column) (r : Row.t) : DbValue :=
  let text (v : JsString) :=
    match v with
    | Some s => DbText s
    | None => DbNull
    end in
  match c with
  | Cid => DbInt (Row.id r)
  | CcreationTime => DbText (Row.creationTime r)
  | Cusername => text (Row.username r)
  | Cpassword => DbText (Row.password r)
  | CfirstName => text (Row.firstName r)
  | ClastName => text (Row.lastName r)
  | Crights => Row.rights r
  end.

(** A literal as a text column takes it. *)
Definition text_of (l : SqlLiteral) : JsString :=
  match l with
  | SqlNull => None
  | SqlBool true => Some "1"%string
  | SqlBool false => Some "0"%string
  | SqlNumber z => Some (decimal z)
  | SqlString s => Some s
  end.

(** Modelled from the spec: the schema of [userlist] is not among the
    sources.  The columns are taken as the rows of this model hold them: an
    integer [id], the texts [creationTime] and [password] that refuse NULL,
    the texts [username], [firstName] and [lastName] that accept it, and
    [rights] holding what is bound to it. *)
Definition store (mysql : MySQL) (c : Column) (l : SqlLiteral) (r : Row.t)
  : option Row.t :=
  let with_id (z : Z) :=
    Row.make z (Row.creationTime r) (Row.username r) (Row.password r)
             (Row.firstName r) (Row.lastName r) (Row.rights r) in
  match c with
  | Cid =>
      match l with
      | SqlNull => None
      | SqlBool b => Some (with_id (if b then 1 else 0))
      | SqlNumber z => Some (with_id z)
      | SqlString s => option_map with_id (sql_integer mysql s)
      end
  | CcreationTime =>
      option_map
        (fun s => Row.make (Row.id r) s (Row.username r) (Row.password r)
                           (Row.firstName r) (Row.lastName r) (Row.rights r))
        (text_of l)
  | Cusername =>
      Some (Row.make (Row.id r) (Row.creationTime r) (text_of l)
                     (Row.password r) (Row.firstName r) (Row.lastName r)
                     (Row.rights r))
  | Cpassword => option_map (fun s => Row.set_password s r) (text_of l)
  | CfirstName => Some (Row.set_names (text_of l) (Row.lastName r) r)
  | ClastName => Some (Row.set_names (Row.firstName r) (text_of l) r)
  | Crights =>
      Some (Row.make (Row.id r) (Row.creationTime r) (Row.username r)
                     (Row.password r) (Row.firstName r) (Row.lastName r)
                     (match l with
                      | SqlNull => DbNull
                      | SqlBool b => DbInt (if b then 1 else 0)
                      | SqlNumber z => DbInt z
                      | SqlString s => DbText s
                      end))
  end.

Definition assigned_value (mysql : MySQL) (a : Assigned) (r : Row.t)
  : SqlLiteral :=
  match a with
  | Value l => l
  | Compared c l =>
      match sql_equal mysql (cell c r) l with
      | Some true => SqlNumber 1
      | Some false => SqlNumber 0
      | None => SqlNull
      end
  end.

(** The assignments of a SET list are made from left to right, each on
    the row the earlier ones left. *)
Fixpoint assign_all (mysql : MySQL) (plan : list (Column * Assigned))
    (r : Row.t) : option Row.t :=
  match plan with
  | [] => Some r
  | (c, a) :: rest =>
      match store mysql c (assigned_value mysql a r) r with
      | Some r' => assign_all mysql rest r'
      | None => None
      end
  end.

Fixpoint update_rows (mysql : MySQL) (plan : list (Column * Assigned))
    (z : Z) (rows : list Row.t) : option (list Row.t) :=
  match rows with
  | [] => Some []
  | r :: rest =>
      match (if has_id z r then assign_all mysql plan r else Some r),
            update_rows mysql plan z rest with
      | Some r', Some rest' => Some (r' :: rest')
      | _, _ => None
      end
  end.

Definition touches_keys (plan : list (Column * Assigned)) : bool :=
  existsb (fun ca => match fst ca with
                     | Cid | Cusername => true
                     | _ => false
                     end) plan.

(** Modelled from the spec: ids and usernames are unique in the store. *)
Fixpoint keys_distinct (rows : list Row.t) : bool :=
  match rows with
  | [] => true
  | r :: rest =>
      negb (existsb (has_id (Row.id r)) rest)
      && negb (existsb (fun r' => same_username (Row.username r')
                                                (Row.username r)) rest)
      && keys_distinct rest
  end.

Definition ER_PARSE_ERROR : MysqlError :=
  {| code := "ER_PARSE_ERROR"; fatal := false |}.
Definition ER_BAD_NULL_ERROR : MysqlError :=
  {| code := "ER_BAD_NULL_ERROR"; fatal := false |}.

(** [UPDATE userlist SET firstName = ?, lastName = ? WHERE id = ?;] with
    any values bound to the two names.  A statement that fails leaves the
    table as it was. *)
Definition update_values (mysql : MySQL) (f l : JsValue) (n : JsNumber)
    (db : Store) : DriverReply OkPacket * Store :=
  match n with
  | NaN => (Failure ER_BAD_FIELD_ERROR None, db)
  | Num z =>
      match set_clause "firstName" f, set_clause "lastName" l with
      | Some first, Some last =>
          match resolve_all (first ++ last) with
          | Some plan =>
              match update_rows mysql plan z (userlist db) with
              | Some rows =>
                  if touches_keys plan && negb (keys_distinct rows)
                  then (Failure ER_DUP_ENTRY None, db)
                  else (Success {| affectedRows := count_id z (userlist db);
                                   insertId := 0 |},
                        {| userlist := rows;
                           auto_increment := auto_increment db |})
              | None => (Failure ER_BAD_NULL_ERROR None, db)
              end
          | None => (Failure ER_BAD_FIELD_ERROR None, db)
          end
      | _, _ => (Failure ER_PARSE_ERROR None, db)
      end
  end.

Definition execute_values (mysql : MySQL) (s : ValuesStatement) (db : Store)
  : DriverReply OkPacket * Store :=
  match s with
  | UpdateValues f l n => update_values mysql f l n db
  end.

(** ** Requests, responses and the world a request runs in *)

Module Body.
(** [req.body] of the declared type: the four properties the handlers
    read, each a string or absent, as the handlers declare them.  The bodies
    a client can send beyond these are those of [Wire.t] below. *)
Record t : Type := make {
  username : JsString;
  password : JsString;
  firstName : JsString;
  lastName : JsString
}.
End Body.

Module Wire.
(** [req.body] as it reaches a handler: each property is any value. *)
Record t : Type := make {
  username : JsValue;
  password : JsValue;
  firstName : JsValue;
  lastName : JsValue
}.

(** The body of the declared type, when every property is a string or
    absent. *)
Definition declared (b : t) : option Body.t :=
  let field (v : JsValue) : option JsString :=
    match v with
    | VString s => Some (Some s)
    | VUndefined => Some None
    | _ => None
    end in
  match field (username b), field (password b), field (firstName b),
        field (lastName b) with
  | Some u, Some p, Some f, Some l => Some (Body.make u p f l)
  | _, _, _, _ => None
  end.
End Wire.

(** Method and path of the routes registered on [app]; [userId] is
    [req.params.userId]. *)
Inductive Endpoint : Type :=
| GET_login
| POST_login
| POST_logout
| POST_user
| GET_user (userId : string)
| PUT_user (userId : string)
| DELETE_user (userId : string)
| GET_users.

Module Request.
Record t : Type := make {
  endpoint : Endpoint;
  body : Body.t
}.
End Request.

Module Session.
(** [req.session]: at most one authenticated user. *)
Record t : Type := make {
  user : option User.t
}.
End Session.

Inductive Json : Type :=
| Message (message : string)
| MessageUser (message : string) (user : option User.t)
| MessageUserList (message : string) (userList : list User.t).

Record Response : Type := {
  status : Z;
  send : Json
}.

Inductive Outcome : Type :=
| Sent (res : Response)
| Threw (e : JsError)
| Fallthrough.

Record World : Type := {
  session : Session.t;
  database : Store;
  issued : list Issued
}.

Definition with_session (s : Session.t) (w : World) : World :=
  {| session := s; database := database w; issued := issued w |}.

Definition with_database (db : Store) (w : World) : World :=
  {| session := session w; database := db; issued := issued w |}.

Definition log {A : Type} (s : Statement A) (w : World) : World :=
  {| session := session w; database := database w;
     issued := issued w ++ [Issue s] |}.

(** What a request does not control: whether the connection fails when the
    statement is sent, and the clock read by [new Date().toLocaleString()].
    The driver is taken to call back, with a result or with an error: a
    call that never returns and a connection that ends the process are no
    values of [Env]. *)
Record Env : Type := {
  fault : option MysqlError;
  now : string
}.

(** [database.query(sql, data, callback)]: the statement is handed to the
    driver; a failing connection calls back with the error and no result. *)
Definition database_query {A : Type} (env : Env) (s : Statement A) (w : World)
  : DriverReply A * World :=
  let w1 := log s w in
  match fault env with
  | Some e => (Failure e None, w1)
  | None =>
      let (reply, db) := execute s (database w1) in
      (reply, with_database db w1)
  end.

(** The state a promise settles in; a rejection carries what [reject] was
    given. *)
Inductive Promise (A : Type) : Type :=
| Resolved (value : A)
| Rejected (reason : option A).
Arguments Resolved {A} value.
Arguments Rejected {A} reason.

(** [async function query(sql, data)]: on an error the promise is rejected
    with [result], not with [err]. *)
Definition query {A : Type} (env : Env) (s : Statement A) (w : World)
  : Promise A * World :=
  let (reply, w') := database_query env s w in
  (match reply with
   | Failure err result => Rejected result
   | Success result => Resolved result
   end, w').

Definition log_values (s : ValuesStatement) (w : World) : World :=
  {| session := session w; database := database w;
     issued := issued w ++ [IssueValues s] |}.

(** [query] on a statement whose bound values are any values. *)
Definition query_values (mysql : MySQL) (env : Env) (s : ValuesStatement)
    (w : World) : Promise OkPacket * World :=
  let w1 := log_values s w in
  let (reply, w') :=
    match fault env with
    | Some e => (Failure e None, w1)
    | None =>
        let (reply, db) := execute_values mysql s (database w1) in
        (reply, with_database db w1)
    end in
  (match reply with
   | Failure err result => Rejected result
   | Success result => Resolved result
   end, w').

(** String conversion, as performed by ['...' + err]. *)
Class ToJsString (A : Type) : Type := js_toString : A -> string.

#[export] Instance Row_ToJsString : ToJsString Row.t :=
  fun _ => "[object Object]"%string.
#[export] Instance OkPacket_ToJsString : ToJsString OkPacket :=
  fun _ => "[object Object]"%string.
#[export] Instance Array_ToJsString {A : Type} `{ToJsString A}
  : ToJsString (list A) :=
  fun l => String.concat "," (map js_toString l).

Definition String_of {A : Type} `{ToJsString A} (v : option A) : string :=
  match v with
  | Some a => js_toString a
  | None => "undefined"%string
  end.

Definition res (code : Z) (body : Json) : Outcome :=
  Sent {| status := code; send := body |}.

(** A middleware [(req, res, next) => ...]: it answers, throws, or calls
    [next] on the world it leaves. *)
Definition Middleware : Type :=
  Env -> Request.t -> World -> (World -> Outcome * World) -> Outcome * World.

(** Express runs the stack of a route in the order it was declared. *)
Fixpoint run_chain (stack : list Middleware) (env : Env) (req : Request.t)
    (w : World) : Outcome * World :=
  match stack with
  | [] => (Fallthrough, w)
  | m :: rest => m env req w (fun w' => run_chain rest env req w')
  end.

(** The routes that declare [isLoggedIn()], and those that also declare
    [isPrivilegedAtLeast(Rights.Admin)]. *)
Definition session_guarded (e : Endpoint) : bool :=
  match e with
  | GET_login | POST_user | GET_user _ | PUT_user _ | DELETE_user _
  | GET_users => true
  | POST_login | POST_logout => false
  end.

Definition role_guarded (e : Endpoint) : bool :=
  match e with
  | POST_user | PUT_user _ | DELETE_user _ => true
  | _ => false
  end.

(** ** Sample data, used to run the model on concrete requests *)

Module Sample.
Local Open Scope string_scope.

(** A stand-in for the digest and the decimal fragment of string to
    number conversion. *)
Definition SHA512 (message : string) : string := "sha512:" ++ message.

Definition digit (c : ascii) : option Z :=
  let n := Z.of_nat (nat_of_ascii c) in
  if (48 <=? n)%Z && (n <=? 57)%Z then Some (n - 48)%Z else None.

Fixpoint digits (acc : Z) (s : string) : JsNumber :=
  match s with
  | EmptyString => Num acc
  | String c s' =>
      match digit c with
      | Some d => digits (10 * acc + d)%Z s'
      | None => NaN
      end
  end.

Definition StringToNumber (s : string) : JsNumber := digits 0 s.

Definition admin_row : Row.t :=
  Row.make 1 "2017-11-12 09:33:25" (Some "admin") (SHA512 "secret")
           (Some "Peter") (Some "Kneisel") (DbText "1").
Definition hans_row : Row.t :=
  Row.make 2 "2018-11-04 13:02:44" (Some "hans") (SHA512 "hans")
           (Some "Hans") (Some "Mustermann") (DbInt 0).

Definition store : Store :=
  {| userlist := [admin_row; hans_row]; auto_increment := 3 |}.

Definition anonymous : World :=
  {| session := Session.make None; database := store; issued := [] |}.
Definition as_admin : World :=
  {| session := Session.make (Some (row_user admin_row));
     database := store; issued := [] |}.
Definition as_hans : World :=
  {| session := Session.make (Some (row_user hans_row));
     database := store; issued := [] |}.

Definition no_body : Body.t := Body.make None None None None.
Definition credentials (u p : string) : Body.t :=
  Body.make (Some u) (Some p) None None.
Definition names (f l : string) : Body.t :=
  Body.make None None (Some f) (Some l).

Definition online : Env := {| fault := None; now := "11/2/2026, 9:00:00 AM" |}.
Definition ECONNREFUSED : MysqlError :=
  {| code := "ECONNREFUSED"; fatal := true |}.
Definition PROTOCOL_CONNECTION_LOST : MysqlError :=
  {| code := "PROTOCOL_CONNECTION_LOST"; fatal := true |}.
Definition offline (e : MysqlError) : Env :=
  {| fault := Some e; now := "11/2/2026, 9:00:00 AM" |}.
End Sample.

Module SampleServer.
(** A stand-in for the comparison and the integer conversion of the
    database server. *)
Definition equal (c : DbValue) (l : SqlLiteral) : option bool :=
  match c, l with
  | DbNull, _ | _, SqlNull => None
  | DbInt a, SqlNumber b => Some (a =? b)
  | DbInt a, SqlBool b => Some (a =? (if b then 1 else 0))
  | DbInt a, SqlString s =>
      match Sample.StringToNumber s with
      | Num b => Some (a =? b)
      | NaN => Some (a =? 0)
      end
  | DbText s, SqlString t => Some (String.eqb s t)
  | DbText s, SqlNumber b =>
      match Sample.StringToNumber s with
      | Num a => Some (a =? b)
      | NaN => Some (0 =? b)
      end
  | DbText s, SqlBool b =>
      match Sample.StringToNumber s with
      | Num a => Some (a =? (if b then 1 else 0))
      | NaN => Some (negb b)
      end
  end.

Definition integer (s : string) : option Z :=
  match Sample.StringToNumber s with
  | Num z => Some z
  | NaN => None
  end.

Definition mysql : MySQL := {| sql_equal := equal; sql_integer := integer |}.


Definition rename : Wire.t :=
  Wire.make VUndefined VUndefined (VString "Hansi") (VString "Muster").

(** A session whose user has the text "admin" as rights. *)
Definition named_user : User.t :=
  User.new 2 (Some "hans"%string) (Some "Hans"%string)
           (Some "Mustermann"%string) InvalidDate (DbText "admin").
Definition named_role : World :=
  {| session := Session.make (Some named_user);
     database := Sample.store; issued := [] |}.
End SampleServer.

Module Bodies.
(** A complete body for POST /user, and one whose first name is empty. *)
Definition erika : Body.t :=
  Body.make (Some "erika"%string) (Some "geheim"%string)
            (Some "Erika"%string) (Some "Musterfrau"%string).
Definition nameless : Body.t :=
  Body.make None None (Some ""%string) (Some "Mustermann"%string).
End Bodies.


(** ** The server *)

Section Server.

(** [cryptoJS.SHA512(message).toString()], and the conversion of a string to
    a number performed by [Number]. *)
Variable SHA512 : string -> string.
Variable StringToNumber : string -> JsNumber.

(** The database server, for the statements whose bound values are not
    of the declared type. *)
Variable mysql : MySQL.

(** [Number(v)] for a column value; [Number(null)] is 0. *)
Definition Number (v : DbValue) : JsNumber :=
  match v with
  | DbInt z => Num z
  | DbText s => StringToNumber s
  | DbNull => Num 0
  end.

(** The digest of a body field: the hasher appends nothing for [undefined],
    which leaves the digest of the empty message. *)
Definition digest (message : JsString) : string :=
  match message with
  | Some s => SHA512 s
  | None => SHA512 EmptyString
  end.

(** *** Middleware for session management *)

Definition isLoggedIn : Middleware :=
  fun env req w next =>
    match Session.user (session w) with
    | Some _ => next w
    | None =>
        (res 401 (Message "Session expired, please log in again"), w)
    end.

(** [req.session.user.rights] is read without a test: on a session without
    a user the property access throws. *)
Definition isPrivilegedAtLeast (rights : Rights.t) : Middleware :=
  fun env req w next =>
    match Session.user (session w) with
    | None =>
        (Threw (TypeError "Cannot read property 'rights' of undefined"), w)
    | Some user =>
        if js_gt (Rights.ordinal rights) (Number (User.rights user))
        then (res 403 (Message "You are not allowed to execute this action"), w)
        else next w
    end.

(** *** Login and logout *)

Definition getLogin : Middleware :=
  fun env req w next =>
    (res 200 (MessageUser "User still logged in" (Session.user (session w))),
     w).

Definition login : Middleware :=
  fun env req w next =>
    let username := Body.username (Request.body req) in
    let password := Body.password (Request.body req) in
    let (users, w1) := query env (SelectLogin username (digest password)) w in
    match users with
    | Resolved [row] =>
        (* users.length === 1 *)
        let user := login_user row in
        (res 200 (MessageUser "Successfully logged in" (Some user)),
         with_session (Session.make (Some user)) w1)
    | Resolved _ =>
        (res 401 (Message "Username or password is incorrect."), w1)
    | Rejected err =>
        (res 500 (Message ("Database request failed: " ++ String_of err)), w1)
    end.

Definition logout : Middleware :=
  fun env req w next =>
    (res 200 (Message "Successfully logged out"),
     with_session (Session.make None) w).

(** *** User and users *)

Definition createUser : Middleware :=
  fun env req w next =>
    let firstName := Body.firstName (Request.body req) in
    let lastName := Body.lastName (Request.body req) in
    let username := Body.username (Request.body req) in
    let password := digest (Body.password (Request.body req)) in
    if truthy firstName && truthy lastName then
      let data :=
        InsertUser (now env) username password firstName lastName Rights.User
      in
      match query env data w with
      | (Resolved _, w1) =>
          (res 201 (Message "Successfully created new user"), w1)
      | (Rejected _, w1) =>
          (res 400 (Message "An error occured while creating the new user"), w1)
      end
    else (res 400 (Message "Not all mandatory fields are filled in"), w).

Definition getUserfromId (userId : string) : Middleware :=
  fun env req w next =>
    let userId := StringToNumber userId in
    let (rows, w1) := query env (SelectById userId) w in
    match rows with
    | Resolved [row] =>
        (* rows.length === 1 *)
        (res 200 (MessageUser "Successfully got user" (Some (row_user row))),
         w1)
    | Resolved _ =>
        (res 404 (Message "The requested user can not be found."), w1)
    | Rejected err =>
        (res 500 (Message ("Database request failed: " ++ String_of err)), w1)
    end.

Definition update (userId : string) : Middleware :=
  fun env req w next =>
    let userId := StringToNumber userId in
    let firstName := Body.firstName (Request.body req) in
    let lastName := Body.lastName (Request.body req) in
    if truthy firstName && truthy lastName then
      match query env (UpdateNames firstName lastName userId) w with
      | (Resolved result, w1) =>
          (* result.affectedRows != 1 *)
          if negb (affectedRows result =? 1)
          then (res 400 (Message "The user to update could not be found"), w1)
          else (res 200 (Message ("Successfully updated user "
                                    ++ template firstName ++ " "
                                    ++ template lastName)), w1)
      | (Rejected _, w1) =>
          (res 400 (Message "The user to update could not be found"), w1)
      end
    else (res 400 (Message "Not all mandatory fields are filled in"), w).

(** [update] on the body as it came: the two names are whatever values the
    client sent. *)
Definition update_values_of (userId : string) (body : Wire.t) (env : Env)
    (w : World) : Outcome * World :=
  let userId := StringToNumber userId in
  let firstName := Wire.firstName body in
  let lastName := Wire.lastName body in
  if truthy_value firstName && truthy_value lastName then
    match query_values mysql env (UpdateValues firstName lastName userId) w
    with
    | (Resolved result, w1) =>
        if negb (affectedRows result =? 1)
        then (res 400 (Message "The user to update could not be found"), w1)
        else (res 200 (Message ("Successfully updated user "
                                  ++ String_value firstName ++ " "
                                  ++ String_value lastName)), w1)
    | (Rejected _, w1) =>
        (res 400 (Message "The user to update could not be found"), w1)
    end
  else (res 400 (Message "Not all mandatory fields are filled in"), w).

Definition deleteUser (userId : string) : Middleware :=
  fun env req w next =>
    let userId := StringToNumber userId in
    match query env (DeleteById userId) w with
    | (Resolved result, w1) =>
        if affectedRows result =? 1
        then (res 200 (Message "Successfully deleted user "), w1)
        else (res 400 (Message "The user to be deleted could not be found"),
              w1)
    | (Rejected err, w1) =>
        (res 500 (Message ("Database request failed: " ++ String_of err)), w1)
    end.

Definition getUserlist : Middleware :=
  fun env req w next =>
    match query env SelectAll w with
    | (Resolved rows, w1) =>
        (res 200 (MessageUserList "Successfully requested user list"
                                  (map row_user rows)), w1)
    | (Rejected err, w1) =>
        (res 500 (Message ("Database request failed: " ++ String_of err)), w1)
    end.

(** *** The routing table *)

Definition route (e : Endpoint) : list Middleware :=
  match e with
  | GET_login => [isLoggedIn; getLogin]
  | POST_login => [login]
  | POST_logout => [logout]
  | POST_user => [isLoggedIn; isPrivilegedAtLeast Rights.Admin; createUser]
  | GET_user userId => [isLoggedIn; getUserfromId userId]
  | PUT_user userId =>
      [isLoggedIn; isPrivilegedAtLeast Rights.Admin; update userId]
  | DELETE_user userId =>
      [isLoggedIn; isPrivilegedAtLeast Rights.Admin; deleteUser userId]
  | GET_users => [isLoggedIn; getUserlist]
  end.

Definition app (env : Env) (req : Request.t) (w : World) : Outcome * World :=
  run_chain (route (Request.endpoint req)) env req w.

(** PUT /user/:userId with the body as it came: the stack of the route with
    [update] reading that body.  The guards read the session only. *)
Definition put_user (env : Env) (userId : string) (body : Wire.t) (w : World)
  : Outcome * World :=
  run_chain [isLoggedIn; isPrivilegedAtLeast Rights.Admin;
             fun env _ w _ => update_values_of userId body env w]
            env (Request.make (PUT_user userId) (Body.make None None None None))
            w.

(** A session that gets through both guards of a privileged route. *)
Definition privileged (w : World) : bool :=
  match Session.user (session w) with
  | Some user =>
      negb (js_gt (Rights.ordinal Rights.Admin) (Number (User.rights user)))
  | None => false
  end.

(** The requests whose handler answers a rejected query with status 500:
    POST /login, and GET /user/:id, DELETE /user/:id and GET /users once
    their guards are passed. *)
Definition answers_500_on_failure (e : Endpoint) (w : World) : bool :=
  match e with
  | POST_login => true
  | GET_user _ | GET_users =>
      match Session.user (session w) with
      | Some _ => true
      | None => false
      end
  | DELETE_user _ => privileged w
  | _ => false
  end.

(** The table with the password column of each row replaced. *)
Definition rewrite_passwords (g : Row.t -> string) (db : Store) : Store :=
  {| userlist := map (fun r => Row.set_password (g r) r) (userlist db);
     auto_increment := auto_increment db |}.

(** ** Properties *)

(** *** The promise wrapper and the driver *)

Lemma query_unfold {A : Type} (env : Env) (s : Statement A) (w : World) :
  query env s w =
  (match fst (database_query env s w) with
   | Failure _ result => Rejected result
   | Success result => Resolved result
   end, snd (database_query env s w)).
Proof.
  unfold query. destruct (database_query env s w) as [reply w']. reflexivity.
Qed.

Lemma database_query_session {A : Type} (env : Env) (s : Statement A)
    (w : World) :
  session (snd (database_query env s w)) = session w.
Proof.
  unfold database_query. destruct (fault env) as [e|]; [reflexivity|].
  destruct (execute s (database (log s w))) as [reply db]. reflexivity.
Qed.

Lemma database_query_issued {A : Type} (env : Env) (s : Statement A)
    (w : World) :
  issued (snd (database_query env s w)) = issued w ++ [Issue s].
Proof.
  unfold database_query. destruct (fault env) as [e|]; [reflexivity|].
  destruct (execute s (database (log s w))) as [reply db]. reflexivity.
Qed.

Lemma database_query_database {A : Type} (env : Env) (s : Statement A)
    (w : World) :
  database (snd (database_query env s w)) =
  match fault env with
  | Some _ => database w
  | None => snd (execute s (database w))
  end.
Proof.
  unfold database_query. destruct (fault env) as [e|]; [reflexivity|].
  simpl. destruct (execute s (database w)) as [reply db]. reflexivity.
Qed.

Lemma query_session {A : Type} (env : Env) (s : Statement A) (w : World) :
  session (snd (query env s w)) = session w.
Proof. rewrite query_unfold. apply database_query_session. Qed.

(** A failing connection rejects with [undefined], whatever the error. *)
Lemma query_offline {A : Type} (env : Env) (s : Statement A) (w : World)
    (e : MysqlError) :
  fault env = Some e -> query env s w = (Rejected None, log s w).
Proof.
  intros Hf. unfold query, database_query. rewrite Hf. reflexivity.
Qed.

(** *** The guards *)

Lemma isLoggedIn_next (env : Env) (req : Request.t) (w : World)
    (next : World -> Outcome * World) (user : User.t) :
  Session.user (session w) = Some user -> isLoggedIn env req w next = next w.
Proof. intros Hu. unfold isLoggedIn. rewrite Hu. reflexivity. Qed.

Lemma isLoggedIn_stop (env : Env) (req : Request.t) (w : World)
    (next : World -> Outcome * World) :
  Session.user (session w) = None ->
  isLoggedIn env req w next =
  (res 401 (Message "Session expired, please log in again"), w).
Proof. intros Hu. unfold isLoggedIn. rewrite Hu. reflexivity. Qed.

Lemma privileged_user (w : World) :
  privileged w = true ->
  exists user,
    Session.user (session w) = Some user /\
    js_gt (Rights.ordinal Rights.Admin) (Number (User.rights user)) = false.
Proof.
  unfold privileged. destruct (Session.user (session w)) as [user|];
    [|discriminate].
  intros Hp. exists user. split; [reflexivity|].
  now apply negb_true_iff.
Qed.

(** A privileged session reaches the handler of a privileged route on the
    world it came with. *)
Lemma privileged_reaches_handler (env : Env) (req : Request.t) (w : World)
    (handler : Middleware) :
  privileged w = true ->
  run_chain [isLoggedIn; isPrivilegedAtLeast Rights.Admin; handler] env req w =
  handler env req w (fun w' => (Fallthrough, w')).
Proof.
  intros Hp. destruct (privileged_user w Hp) as (user & Hu & Hgt).
  cbn [run_chain]. rewrite (isLoggedIn_next _ _ _ _ user Hu).
  unfold isPrivilegedAtLeast. rewrite Hu, Hgt. reflexivity.
Qed.

Lemma guarded_route_head (e : Endpoint) :
  session_guarded e = true -> exists rest, route e = isLoggedIn :: rest.
Proof.
  destruct e; simpl; intros H; try discriminate; eexists; reflexivity.
Qed.

Lemma role_route_shape (e : Endpoint) :
  role_guarded e = true ->
  exists handler,
    route e = [isLoggedIn; isPrivilegedAtLeast Rights.Admin; handler].
Proof.
  destruct e; simpl; intros H; try discriminate; eexists; reflexivity.
Qed.

(** C1: a request to a session-guarded route whose session holds no user is
    answered 401 with the session-expired message by [isLoggedIn]; the world
    (session, table and the log of issued statements) is the one the request
    came with, and the answer is the same whatever stands behind the guard,
    so the handler is not run. *)
Theorem isLoggedIn_rejects_missing_session :
  forall (env : Env) (req : Request.t) (w : World),
    session_guarded (Request.endpoint req) = true ->
    Session.user (session w) = None ->
    app env req w =
      (res 401 (Message "Session expired, please log in again"), w)
    /\ exists rest,
         route (Request.endpoint req) = isLoggedIn :: rest
         /\ forall handlers,
              run_chain (isLoggedIn :: handlers) env req w =
              (res 401 (Message "Session expired, please log in again"), w).
Proof.
  intros env req w Hg Hu.
  destruct (guarded_route_head _ Hg) as [rest Hr].
  split.
  - unfold app. rewrite Hr. cbn [run_chain]. now apply isLoggedIn_stop.
  - exists rest. split; [exact Hr|].
    intros handlers. cbn [run_chain]. now apply isLoggedIn_stop.
Qed.

(** C2: with a session user whose role ordinal is the number [n], the role
    guard with minimum [minimum] answers 403 without calling [next] when [n]
    is strictly below the minimum, and hands the unchanged world to [next]
    when [n] is at or above it; on the three role-guarded routes a user below
    Admin gets the 403 and the world is unchanged. *)
Theorem isPrivilegedAtLeast_compares_ordinals :
  forall (env : Env) (req : Request.t) (w : World) (user : User.t) (n : Z)
         (minimum : Rights.t),
    Session.user (session w) = Some user ->
    Number (User.rights user) = Num n ->
    (n < Rights.ordinal minimum ->
       forall next,
         isPrivilegedAtLeast minimum env req w next =
         (res 403 (Message "You are not allowed to execute this action"), w))
    /\ (Rights.ordinal minimum <= n ->
          forall next, isPrivilegedAtLeast minimum env req w next = next w)
    /\ (role_guarded (Request.endpoint req) = true ->
        n < Rights.ordinal Rights.Admin ->
        app env req w =
        (res 403 (Message "You are not allowed to execute this action"), w)).
Proof.
  intros env req w user n minimum Hu Hn.
  assert (Hlow : forall m, n < Rights.ordinal m ->
            forall next,
              isPrivilegedAtLeast m env req w next =
              (res 403 (Message "You are not allowed to execute this action"),
               w)).
  { intros m Hlt next. unfold isPrivilegedAtLeast. rewrite Hu, Hn.
    unfold js_gt. rewrite Z.gtb_ltb.
    destruct (Z.ltb_spec n (Rights.ordinal m)); [reflexivity|lia]. }
  split; [apply Hlow|]. split.
  - intros Hge next. unfold isPrivilegedAtLeast. rewrite Hu, Hn.
    unfold js_gt. rewrite Z.gtb_ltb.
    destruct (Z.ltb_spec n (Rights.ordinal minimum)); [lia|reflexivity].
  - intros Hg Hlt. destruct (role_route_shape _ Hg) as [handler Hr].
    unfold app. rewrite Hr. cbn [run_chain].
    rewrite (isLoggedIn_next _ _ _ _ user Hu). now apply Hlow.
Qed.

(** *** Login and logout *)

Lemma login_unfold (env : Env) (req : Request.t) (w : World)
    (next : World -> Outcome * World) :
  let stmt := SelectLogin (Body.username (Request.body req))
                          (digest (Body.password (Request.body req))) in
  let w1 := snd (database_query env stmt w) in
  login env req w next =
  match fst (database_query env stmt w) with
  | Success [row] =>
      (res 200 (MessageUser "Successfully logged in" (Some (login_user row))),
       with_session (Session.make (Some (login_user row))) w1)
  | Success _ => (res 401 (Message "Username or password is incorrect."), w1)
  | Failure _ err =>
      (res 500 (Message ("Database request failed: " ++ String_of err)), w1)
  end.
Proof.
  cbv zeta. unfold login. rewrite query_unfold.
  destruct (fst (database_query env _ w)) as [[|row [|row' rows]]|e r];
    reflexivity.
Qed.

(** The snapshot taken at login does not read the password column. *)
Lemma login_user_ignores_password (p : string) (row : Row.t) :
  login_user (Row.set_password p row) = login_user row.
Proof. reflexivity. Qed.


(** C8: POST /logout answers 200 and leaves a session without a user, from
    every session and every request body; a second logout leaves the world
    the first one left. *)
Theorem logout_clears_session :
  forall (env env' : Env) (body body' : Body.t) (w : World),
    app env (Request.make POST_logout body) w =
      (res 200 (Message "Successfully logged out"),
       with_session (Session.make None) w)
    /\ Session.user
         (session (snd (app env (Request.make POST_logout body) w))) = None
    /\ snd (app env' (Request.make POST_logout body')
              (snd (app env (Request.make POST_logout body) w)))
       = snd (app env (Request.make POST_logout body) w).
Proof.
  intros env env' body body' w. repeat split.
Qed.

(** *** Creating, updating and deleting users *)

Lemma createUser_unfold (env : Env) (req : Request.t) (w : World)
    (next : World -> Outcome * World) :
  truthy (Body.firstName (Request.body req))
  && truthy (Body.lastName (Request.body req)) = true ->
  let stmt := InsertUser (now env) (Body.username (Request.body req))
                (digest (Body.password (Request.body req)))
                (Body.firstName (Request.body req))
                (Body.lastName (Request.body req)) Rights.User in
  snd (createUser env req w next) = snd (database_query env stmt w).
Proof.
  intros Ht. cbv zeta. unfold createUser. rewrite Ht, query_unfold.
  destruct (fst (database_query env _ w)); reflexivity.
Qed.

Lemma Rights_User_lowest (r : Rights.t) :
  Rights.ordinal Rights.User <= Rights.ordinal r.
Proof. destruct r; simpl; lia. Qed.

(** C4: a POST /user that gets through both guards and the mandatory-fields
    check hands the driver one INSERT whose [rights] placeholder is bound to
    [Rights.User], for every body; the table is then either the one before,
    or the one before with one more row whose [rights] is the ordinal of
    [Rights.User], and no role has a lower ordinal. *)
Theorem createUser_fixes_role :
  forall (env : Env) (body : Body.t) (w : World),
    privileged w = true ->
    truthy (Body.firstName body) && truthy (Body.lastName body) = true ->
    let w' := snd (app env (Request.make POST_user body) w) in
    issued w' =
      issued w ++
      [Issue (InsertUser (now env) (Body.username body)
                (digest (Body.password body)) (Body.firstName body)
                (Body.lastName body) Rights.User)]
    /\ (database w' = database w
        \/ database w' =
           {| userlist :=
                userlist (database w) ++
                [Row.make (auto_increment (database w)) (now env)
                   (Body.username body) (digest (Body.password body))
                   (Body.firstName body) (Body.lastName body)
                   (DbInt (Rights.ordinal Rights.User))];
              auto_increment := auto_increment (database w) + 1 |})
    /\ forall r, Rights.ordinal Rights.User <= Rights.ordinal r.
Proof.
  intros env body w Hp Ht. cbv zeta. unfold app.
  cbn [route Request.endpoint].
  rewrite (privileged_reaches_handler _ _ _ _ Hp).
  rewrite createUser_unfold by exact Ht. cbn [Request.body].
  split; [apply database_query_issued|].
  split; [|apply Rights_User_lowest].
  rewrite database_query_database.
  destruct (fault env) as [e|]; [now left|].
  cbn [execute]. unfold insert_user.
  destruct (existsb _ (userlist (database w))); [now left|now right].
Qed.

Lemma deleteUser_unfold (env : Env) (userId : string) (req : Request.t)
    (w : World) (next : World -> Outcome * World) :
  let stmt := DeleteById (StringToNumber userId) in
  let w1 := snd (database_query env stmt w) in
  deleteUser userId env req w next =
  match fst (database_query env stmt w) with
  | Success result =>
      if affectedRows result =? 1
      then (res 200 (Message "Successfully deleted user "), w1)
      else (res 400 (Message "The user to be deleted could not be found"), w1)
  | Failure _ err =>
      (res 500 (Message ("Database request failed: " ++ String_of err)), w1)
  end.
Proof.
  cbv zeta. unfold deleteUser. rewrite query_unfold.
  destruct (fst (database_query env _ w)); reflexivity.
Qed.

(** C6: on a DELETE /user/:id that gets through both guards, when the driver
    reports one affected row the answer is 200; when it reports zero affected
    rows the answer is the 400 "could not be found" and not a 200; when the
    driver reports a failure the answer has status 500. *)
Theorem deleteUser_outcomes :
  forall (env : Env) (userId : string) (body : Body.t) (w : World),
    privileged w = true ->
    let out := fst (app env (Request.make (DELETE_user userId) body) w) in
    match fst (database_query env (DeleteById (StringToNumber userId)) w) with
    | Success result =>
        (affectedRows result = 1 ->
           out = res 200 (Message "Successfully deleted user "))
        /\ (affectedRows result = 0 ->
              out = res 400
                      (Message "The user to be deleted could not be found")
              /\ forall answer, out <> res 200 answer)
    | Failure err result =>
        out = res 500 (Message ("Database request failed: "
                                  ++ String_of result))
    end.
Proof.
  intros env userId body w Hp. cbv zeta. unfold app.
  cbn [route Request.endpoint].
  rewrite (privileged_reaches_handler _ _ _ _ Hp), deleteUser_unfold.
  destruct (fst (database_query env _ w)) as [result|err result];
    [|reflexivity].
  split; intros Ha; rewrite Ha; cbn [Z.eqb fst]; [reflexivity|].
  split; [reflexivity|]. intros answer. unfold res. intros Heq.
  inversion Heq.
Qed.


Lemma update_unfold (env : Env) (userId : string) (req : Request.t)
    (w : World) (next : World -> Outcome * World) :
  truthy (Body.firstName (Request.body req))
  && truthy (Body.lastName (Request.body req)) = true ->
  let stmt := UpdateNames (Body.firstName (Request.body req))
                (Body.lastName (Request.body req))
                (StringToNumber userId) in
  snd (update userId env req w next) = snd (database_query env stmt w).
Proof.
  intros Ht. cbv zeta. unfold update. rewrite Ht, query_unfold.
  destruct (fst (database_query env _ w)) as [result|err result];
    [|reflexivity].
  destruct (negb (affectedRows result =? 1)); reflexivity.
Qed.

(** *** The update on the body as it came *)

Lemma put_user_privileged (env : Env) (userId : string) (body : Wire.t)
    (w : World) :
  privileged w = true ->
  put_user env userId body w = update_values_of userId body env w.
Proof.
  intros Hp. unfold put_user.
  now rewrite (privileged_reaches_handler _ _ _ _ Hp).
Qed.



(** A value that is no object gives at most the one assignment of a
    literal to its column. *)
Lemma set_clause_plain (column : string) (v : JsValue) :
  is_object v = false ->
  set_clause column v =
  option_map (fun l => [(column, Const l)]) (single_value (escape v)).
Proof. destruct v; try reflexivity. discriminate. Qed.

Lemma update_rows_names (a b : SqlLiteral) (z : Z) (rows : list Row.t) :
  update_rows mysql [(CfirstName, Value a); (ClastName, Value b)] z rows =
  Some (map (fun r => if has_id z r
                      then Row.set_names (text_of a) (text_of b) r
                      else r) rows).
Proof.
  induction rows as [|r rows IH]; [reflexivity|].
  cbn [update_rows map]. rewrite IH.
  destruct (has_id z r); reflexivity.
Qed.

Lemma resolve_names (a b : SqlLiteral) :
  resolve_all ([("firstName"%string, Const a)]
               ++ [("lastName"%string, Const b)])
  = Some [(CfirstName, Value a); (ClastName, Value b)].
Proof. reflexivity. Qed.

Lemma update_values_plain (f l : JsValue) (z : Z) (db : Store) :
  is_object f = false ->
  is_object l = false ->
  update_values mysql f l (Num z) db =
  match single_value (escape f), single_value (escape l) with
  | Some a, Some b =>
      (Success {| affectedRows := count_id z (userlist db); insertId := 0 |},
       {| userlist :=
            map (fun r => if has_id z r
                          then Row.set_names (text_of a) (text_of b) r
                          else r) (userlist db);
          auto_increment := auto_increment db |})
  | _, _ => (Failure ER_PARSE_ERROR None, db)
  end.
Proof.
  intros Hf Hl. unfold update_values.
  rewrite (set_clause_plain _ _ Hf), (set_clause_plain _ _ Hl).
  destruct (single_value (escape f)) as [a|]; [|reflexivity].
  destruct (single_value (escape l)) as [b|]; [|reflexivity].
  cbn [option_map]. rewrite resolve_names, update_rows_names. reflexivity.
Qed.

(** String names are bound as the declared statement binds them. *)
Lemma update_values_strings (f l : string) (n : JsNumber) (db : Store) :
  update_values mysql (VString f) (VString l) n db =
  update_names (Some f) (Some l) n db.
Proof.
  destruct n as [z|]; [|reflexivity].
  now rewrite update_values_plain.
Qed.


(** On a body of the declared type the route on the body as it came and
    the route on the declared body give the same answer and leave the same
    session and table. *)
Lemma put_user_declared (env : Env) (userId : string) (body : Wire.t)
    (declared : Body.t) (w : World) :
  Wire.declared body = Some declared ->
  fst (put_user env userId body w)
  = fst (app env (Request.make (PUT_user userId) declared) w)
  /\ session (snd (put_user env userId body w))
     = session (snd (app env (Request.make (PUT_user userId) declared) w))
  /\ database (snd (put_user env userId body w))
     = database (snd (app env (Request.make (PUT_user userId) declared) w)).
Proof.
  intros Hd. unfold put_user, app. cbn [route Request.endpoint run_chain].
  unfold isLoggedIn, isPrivilegedAtLeast.
  destruct (Session.user (session w)) as [user|]; [|repeat split].
  destruct (js_gt _ _); [repeat split|].
  unfold update_values_of, update. cbn [Request.body].
  destruct body as [u p f l]. unfold Wire.declared in Hd.
  cbn [Wire.username Wire.password Wire.firstName Wire.lastName] in *.
  destruct u; try discriminate Hd; destruct p; try discriminate Hd;
    destruct f as [| | | |f| |]; try discriminate Hd;
    destruct l as [| | | |l| |]; try discriminate Hd;
    inversion Hd; subst declared;
    cbn [Body.firstName Body.lastName truthy truthy_value andb];
    try (repeat split; fail);
    try (destruct (negb (String.eqb f EmptyString)); repeat split; fail);
    (destruct (negb (String.eqb f EmptyString)); [|repeat split];
     destruct (negb (String.eqb l EmptyString)); [|repeat split];
     cbn [andb]; unfold query_values, query, database_query;
     destruct (fault env) as [e|]; [repeat split|];
     cbn [execute_values execute database log log_values];
     rewrite update_values_strings;
     destruct (update_names (Some f) (Some l) (StringToNumber userId)
                 (database w)) as [[result|err reason] db];
     [destruct (negb (affectedRows result =? 1))|]; repeat split).
Qed.

(** *** The order of the guards *)

(** The branch exists: run on its own on a session without a user, the role
    guard throws. *)
Lemma isPrivilegedAtLeast_alone_throws (rights : Rights.t) (env : Env)
    (req : Request.t) (w : World) (next : World -> Outcome * World) :
  Session.user (session w) = None ->
  isPrivilegedAtLeast rights env req w next =
  (Threw (TypeError "Cannot read property 'rights' of undefined"), w).
Proof.
  intros Hu. unfold isPrivilegedAtLeast. rewrite Hu. reflexivity.
Qed.

Ltac settle_handler :=
  intros; cbv zeta;
  repeat match goal with
         | |- context [query ?e ?s ?w] => rewrite (query_unfold e s w)
         | |- context [match fst (database_query ?e ?s ?w) with _ => _ end] =>
             destruct (fst (database_query e s w)) as [[|? [|? ?]]|? ?]
         | |- context [match fst (database_query ?e ?s ?w) with _ => _ end] =>
             destruct (fst (database_query e s w)) as [?|? ?]
         | |- context [if ?b then _ else _] => destruct b
         end.

Lemma handlers_answer (env : Env) (req : Request.t) (w : World)
    (next : World -> Outcome * World) :
  (exists r, fst (getLogin env req w next) = Sent r)
  /\ (exists r, fst (login env req w next) = Sent r)
  /\ (exists r, fst (logout env req w next) = Sent r)
  /\ (exists r, fst (createUser env req w next) = Sent r)
  /\ (forall userId, exists r,
        fst (getUserfromId userId env req w next) = Sent r)
  /\ (forall userId, exists r, fst (update userId env req w next) = Sent r)
  /\ (forall userId, exists r,
        fst (deleteUser userId env req w next) = Sent r)
  /\ (exists r, fst (getUserlist env req w next) = Sent r).
Proof.
  unfold getLogin, login, logout, createUser, getUserfromId, update,
    deleteUser, getUserlist, res.
  repeat split; settle_handler; eexists; reflexivity.
Qed.

(** C9: each route with the role guard declares it right after
    [isLoggedIn]; on such a route a session without a user is answered by
    [isLoggedIn] whatever the second middleware is, so the role guard is not
    run on it; and no request to any route, from any world, ends in the
    TypeError of reading [rights] of a missing user. *)
Theorem role_guard_runs_after_session_guard :
  forall (env : Env) (req : Request.t) (w : World),
    (forall e, fst (app env req w) <> Threw e)
    /\ (role_guarded (Request.endpoint req) = true ->
        exists handler,
          route (Request.endpoint req) =
            [isLoggedIn; isPrivilegedAtLeast Rights.Admin; handler]
          /\ (Session.user (session w) = None ->
              forall second,
                run_chain [isLoggedIn; second; handler] env req w =
                (res 401 (Message "Session expired, please log in again"),
                 w))).
Proof.
  intros env req w. split.
  - intros e. unfold app.
    destruct (handlers_answer env req w (fun w' => (Fallthrough, w')))
      as (H1 & H2 & H3 & H4 & H5 & H6 & H7 & H8).
    destruct (Request.endpoint req) as [| | | |userId|userId|userId|];
      cbn [route run_chain];
      try (destruct H2 as [r ->]; discriminate);
      try (destruct H3 as [r ->]; discriminate);
      unfold isLoggedIn;
      destruct (Session.user (session w)) as [user|] eqn:Hu;
      try discriminate;
      unfold isPrivilegedAtLeast; rewrite ?Hu;
      try destruct (js_gt _ _); try discriminate;
      first [ destruct H1 as [r ->]
            | destruct H4 as [r ->]
            | destruct (H5 userId) as [r ->]
            | destruct (H6 userId) as [r ->]
            | destruct (H7 userId) as [r ->]
            | destruct H8 as [r ->] ];
      discriminate.
  - intros Hg. destruct (role_route_shape _ Hg) as [handler Hr].
    exists handler. split; [exact Hr|].
    intros Hu second. cbn [run_chain]. now apply isLoggedIn_stop.
Qed.

(** *** Who writes the session *)

Lemma handlers_keep_session (env : Env) (req : Request.t) (w : World)
    (next : World -> Outcome * World) :
  session (snd (getLogin env req w next)) = session w
  /\ session (snd (createUser env req w next)) = session w
  /\ (forall userId,
        session (snd (getUserfromId userId env req w next)) = session w)
  /\ (forall userId, session (snd (update userId env req w next)) = session w)
  /\ (forall userId,
        session (snd (deleteUser userId env req w next)) = session w)
  /\ session (snd (getUserlist env req w next)) = session w.
Proof.
  unfold getLogin, createUser, getUserfromId, update, deleteUser, getUserlist.
  repeat split; settle_handler; cbn [snd];
    solve [reflexivity | apply database_query_session].
Qed.

Lemma guards_keep_world (env : Env) (req : Request.t) (w : World)
    (next : World -> Outcome * World) :
  (isLoggedIn env req w next = next w
   \/ snd (isLoggedIn env req w next) = w)
  /\ forall rights,
       isPrivilegedAtLeast rights env req w next = next w
       \/ snd (isPrivilegedAtLeast rights env req w next) = w.
Proof.
  unfold isLoggedIn, isPrivilegedAtLeast.
  destruct (Session.user (session w)) as [user|].
  - split; [now left|]. intros rights.
    destruct (js_gt _ _); [now right|now left].
  - split; [now right|]. intros rights. now right.
Qed.

(** C10: after any request the session is the one before, except that a
    POST /logout leaves the session without a user and a POST /login for
    which the driver returned exactly one row leaves the snapshot of that
    row; each guard either hands the world it got to [next] or answers
    with that world unchanged. *)
Theorem session_written_by_login_and_logout :
  forall (env : Env) (req : Request.t) (w : World),
    let w' := snd (app env req w) in
    (session w' = session w
     \/ (Request.endpoint req = POST_logout
         /\ session w' = Session.make None)
     \/ (Request.endpoint req = POST_login
         /\ exists row,
              fst (database_query env
                     (SelectLogin (Body.username (Request.body req))
                        (digest (Body.password (Request.body req)))) w)
              = Success [row]
              /\ session w' = Session.make (Some (login_user row))))
    /\ (forall next,
          (isLoggedIn env req w next = next w
           \/ snd (isLoggedIn env req w next) = w)
          /\ forall rights,
               isPrivilegedAtLeast rights env req w next = next w
               \/ snd (isPrivilegedAtLeast rights env req w next) = w).
Proof.
  intros env req w. cbv zeta. split; [|intros next; apply guards_keep_world].
  unfold app.
  destruct (handlers_keep_session env req w (fun w' => (Fallthrough, w')))
    as (H1 & H4 & H5 & H6 & H7 & H8).
  destruct (Request.endpoint req) as [| | | |userId|userId|userId|] eqn:He;
    cbn [route run_chain].
  - left. unfold isLoggedIn.
    destruct (Session.user (session w)); [exact H1|reflexivity].
  - rewrite login_unfold. cbv zeta.
    destruct (fst (database_query env _ w)) as [[|row [|row' rows]]|e r] eqn:Hq;
      cbn [snd];
      try (left; apply database_query_session).
    right. right. split; [reflexivity|]. exists row. split; reflexivity.
  - right. left. split; reflexivity.
  - left. unfold isLoggedIn, isPrivilegedAtLeast.
    destruct (Session.user (session w)); [|reflexivity].
    destruct (js_gt _ _); [reflexivity|exact H4].
  - left. unfold isLoggedIn.
    destruct (Session.user (session w)); [apply H5|reflexivity].
  - left. unfold isLoggedIn, isPrivilegedAtLeast.
    destruct (Session.user (session w)); [|reflexivity].
    destruct (js_gt _ _); [reflexivity|apply H6].
  - left. unfold isLoggedIn, isPrivilegedAtLeast.
    destruct (Session.user (session w)); [|reflexivity].
    destruct (js_gt _ _); [reflexivity|apply H7].
  - left. unfold isLoggedIn.
    destruct (Session.user (session w)); [exact H8|reflexivity].
Qed.

(** *** Store failures *)

(** A failure of the connection is caught by each of the four handlers and
    answered with status 500; the text of the answer is the same for every
    error, since [query] rejects with the driver's result. *)
Lemma store_failure_answer (env : Env) (req : Request.t) (w : World)
    (e : MysqlError) :
  fault env = Some e ->
  answers_500_on_failure (Request.endpoint req) w = true ->
  fst (app env req w) = res 500 (Message "Database request failed: undefined").
Proof.
  intros Hf Ha. unfold app.
  destruct (Request.endpoint req) as [| | | |userId|userId|userId|];
    cbn [answers_500_on_failure] in Ha; try discriminate Ha;
    cbn [route].
  - cbn [run_chain]. unfold login. rewrite (query_offline _ _ _ e Hf).
    reflexivity.
  - cbn [run_chain]. unfold isLoggedIn.
    destruct (Session.user (session w)); [|discriminate Ha].
    unfold getUserfromId. rewrite (query_offline _ _ _ e Hf). reflexivity.
  - rewrite (privileged_reaches_handler _ _ _ _ Ha).
    unfold deleteUser. rewrite (query_offline _ _ _ e Hf). reflexivity.
  - cbn [run_chain]. unfold isLoggedIn.
    destruct (Session.user (session w)); [|discriminate Ha].
    unfold getUserlist. rewrite (query_offline _ _ _ e Hf). reflexivity.
Qed.

(** ** Further properties of the routes *)

Lemma session_reaches_handler (env : Env) (req : Request.t) (w : World)
    (handler : Middleware) (user : User.t) :
  Session.user (session w) = Some user ->
  run_chain [isLoggedIn; handler] env req w =
  handler env req w (fun w' => (Fallthrough, w')).
Proof.
  intros Hu. cbn [run_chain]. now rewrite (isLoggedIn_next _ _ _ _ user Hu).
Qed.

(** *** GET /login *)

(** GET /login with a logged-in session answers 200 with the snapshot held
    by the session and leaves the world as it was. *)
Theorem getLogin_returns_session_user :
  forall (env : Env) (body : Body.t) (w : World) (user : User.t),
    Session.user (session w) = Some user ->
    app env (Request.make GET_login body) w =
    (res 200 (MessageUser "User still logged in" (Some user)), w).
Proof.
  intros env body w user Hu. unfold app. cbn [route Request.endpoint].
  rewrite (session_reaches_handler _ _ _ _ user Hu).
  unfold getLogin. now rewrite Hu.
Qed.

(** *** The mandatory fields *)

(** POST /user behind both guards with a first or last name that is absent
    or empty answers 400 "Not all mandatory fields are filled in"; nothing
    is sent to the driver and the world is as it was. *)
Theorem createUser_requires_names :
  forall (env : Env) (body : Body.t) (w : World),
    privileged w = true ->
    truthy (Body.firstName body) && truthy (Body.lastName body) = false ->
    app env (Request.make POST_user body) w =
    (res 400 (Message "Not all mandatory fields are filled in"), w).
Proof.
  intros env body w Hp Ht. unfold app. cbn [route Request.endpoint].
  rewrite (privileged_reaches_handler _ _ _ _ Hp).
  unfold createUser. cbn [Request.body]. now rewrite Ht.
Qed.

(** PUT /user/:userId behind both guards with a first or last name that is
    absent or empty answers 400 "Not all mandatory fields are filled in";
    nothing is sent to the driver and the world is as it was. *)
Theorem update_requires_names :
  forall (env : Env) (userId : string) (body : Body.t) (w : World),
    privileged w = true ->
    truthy (Body.firstName body) && truthy (Body.lastName body) = false ->
    app env (Request.make (PUT_user userId) body) w =
    (res 400 (Message "Not all mandatory fields are filled in"), w).
Proof.
  intros env userId body w Hp Ht. unfold app. cbn [route Request.endpoint].
  rewrite (privileged_reaches_handler _ _ _ _ Hp).
  unfold update. cbn [Request.body]. now rewrite Ht.
Qed.

(** *** The answers of create, update and get *)

Lemma createUser_answer (env : Env) (req : Request.t) (w : World)
    (next : World -> Outcome * World) :
  truthy (Body.firstName (Request.body req))
  && truthy (Body.lastName (Request.body req)) = true ->
  let stmt := InsertUser (now env) (Body.username (Request.body req))
                (digest (Body.password (Request.body req)))
                (Body.firstName (Request.body req))
                (Body.lastName (Request.body req)) Rights.User in
  fst (createUser env req w next) =
  match fst (database_query env stmt w) with
  | Success _ => res 201 (Message "Successfully created new user")
  | Failure _ _ =>
      res 400 (Message "An error occured while creating the new user")
  end.
Proof.
  intros Ht. cbv zeta. unfold createUser. rewrite Ht, query_unfold.
  destruct (fst (database_query env _ w)); reflexivity.
Qed.

(** POST /user behind both guards and the mandatory-fields check answers
    201 when the driver accepts the INSERT, and 400 "An error occured while
    creating the new user" for every failure the driver reports, a failed
    connection included: this route has no 500. *)
Theorem createUser_created_or_rejected :
  forall (env : Env) (body : Body.t) (w : World),
    privileged w = true ->
    truthy (Body.firstName body) && truthy (Body.lastName body) = true ->
    fst (app env (Request.make POST_user body) w) =
    match fst (database_query env
                 (InsertUser (now env) (Body.username body)
                    (digest (Body.password body)) (Body.firstName body)
                    (Body.lastName body) Rights.User) w) with
    | Success _ => res 201 (Message "Successfully created new user")
    | Failure _ _ =>
        res 400 (Message "An error occured while creating the new user")
    end.
Proof.
  intros env body w Hp Ht. unfold app. cbn [route Request.endpoint].
  rewrite (privileged_reaches_handler _ _ _ _ Hp).
  now rewrite createUser_answer.
Qed.

Lemma update_answer (env : Env) (userId : string) (req : Request.t)
    (w : World) (next : World -> Outcome * World) :
  truthy (Body.firstName (Request.body req))
  && truthy (Body.lastName (Request.body req)) = true ->
  let stmt := UpdateNames (Body.firstName (Request.body req))
                (Body.lastName (Request.body req))
                (StringToNumber userId) in
  fst (update userId env req w next) =
  match fst (database_query env stmt w) with
  | Success result =>
      if affectedRows result =? 1
      then res 200 (Message ("Successfully updated user "
                               ++ template (Body.firstName (Request.body req))
                               ++ " "
                               ++ template (Body.lastName (Request.body req))))
      else res 400 (Message "The user to update could not be found")
  | Failure _ _ => res 400 (Message "The user to update could not be found")
  end.
Proof.
  intros Ht. cbv zeta. unfold update. rewrite Ht, query_unfold.
  destruct (fst (database_query env _ w)) as [result|err result];
    [|reflexivity].
  destruct (affectedRows result =? 1); reflexivity.
Qed.

(** PUT /user/:userId behind both guards and the mandatory-fields check
    answers 200 with the two names in the message when the driver reports
    exactly one affected row; a report of any other number of rows and a
    failure of the driver get the same 400 "The user to update could not be
    found", so the answer does not tell an unknown id from a failed store. *)
Theorem update_found_or_not_found :
  forall (env : Env) (userId : string) (body : Body.t) (w : World),
    privileged w = true ->
    truthy (Body.firstName body) && truthy (Body.lastName body) = true ->
    fst (app env (Request.make (PUT_user userId) body) w) =
    match fst (database_query env
                 (UpdateNames (Body.firstName body) (Body.lastName body)
                    (StringToNumber userId)) w) with
    | Success result =>
        if affectedRows result =? 1
        then res 200 (Message ("Successfully updated user "
                                 ++ template (Body.firstName body) ++ " "
                                 ++ template (Body.lastName body)))
        else res 400 (Message "The user to update could not be found")
    | Failure _ _ => res 400 (Message "The user to update could not be found")
    end.
Proof.
  intros env userId body w Hp Ht. unfold app. cbn [route Request.endpoint].
  rewrite (privileged_reaches_handler _ _ _ _ Hp).
  now rewrite update_answer.
Qed.

Lemma getUserfromId_unfold (env : Env) (userId : string) (req : Request.t)
    (w : World) (next : World -> Outcome * World) :
  let stmt := SelectById (StringToNumber userId) in
  getUserfromId userId env req w next =
  (match fst (database_query env stmt w) with
   | Success [row] =>
       res 200 (MessageUser "Successfully got user" (Some (row_user row)))
   | Success _ => res 404 (Message "The requested user can not be found.")
   | Failure _ err =>
       res 500 (Message ("Database request failed: " ++ String_of err))
   end, snd (database_query env stmt w)).
Proof.
  cbv zeta. unfold getUserfromId. rewrite query_unfold.
  destruct (fst (database_query env _ w)) as [[|row [|row' rows]]|e r];
    reflexivity.
Qed.

Lemma filter_has_id_In (z : Z) (rows : list Row.t) (row : Row.t) :
  In row (filter (has_id z) rows) -> In row rows /\ Row.id row = z.
Proof.
  intros Hin. apply filter_In in Hin. destruct Hin as [Hin Hid].
  split; [exact Hin|]. unfold has_id in Hid. now apply Z.eqb_eq.
Qed.

(** GET /user/:userId with a logged-in session answers 200 with the snapshot
    of the row when the driver returns exactly one row, 404 when it returns
    none or several, and 500 when it fails; the table is not changed.  A
    snapshot that is returned is that of a row of the table whose id is the
    number of the request. *)
Theorem getUserfromId_outcomes :
  forall (env : Env) (userId : string) (body : Body.t) (w : World)
         (user : User.t),
    Session.user (session w) = Some user ->
    let out := fst (app env (Request.make (GET_user userId) body) w) in
    let w' := snd (app env (Request.make (GET_user userId) body) w) in
    out =
      match fst (database_query env (SelectById (StringToNumber userId)) w)
      with
      | Success [row] =>
          res 200 (MessageUser "Successfully got user" (Some (row_user row)))
      | Success _ => res 404 (Message "The requested user can not be found.")
      | Failure _ err =>
          res 500 (Message ("Database request failed: " ++ String_of err))
      end
    /\ database w' = database w
    /\ forall message found,
         out = res 200 (MessageUser message (Some found)) ->
         exists row,
           In row (userlist (database w))
           /\ StringToNumber userId = Num (Row.id row)
           /\ found = row_user row.
Proof.
  intros env userId body w user Hu. cbv zeta. unfold app.
  cbn [route Request.endpoint].
  rewrite (session_reaches_handler _ _ _ _ user Hu), getUserfromId_unfold.
  cbn [fst snd]. split; [reflexivity|]. split.
  - rewrite database_query_database. destruct (fault env); [reflexivity|].
    cbn [execute]. unfold select_by_id.
    destruct (StringToNumber userId); reflexivity.
  - intros message found. unfold database_query.
    destruct (fault env) as [e|]; [discriminate|].
    cbn [execute]. unfold select_by_id.
    destruct (StringToNumber userId) as [z|]; [|discriminate].
    cbn [fst database log].
    destruct (filter (has_id z) (userlist (database w)))
      as [|row [|row' rows]] eqn:Hf; try discriminate.
    intros Heq. inversion Heq; subst. exists row.
    assert (Hin : In row (filter (has_id z) (userlist (database w))))
      by (rewrite Hf; now left).
    apply filter_has_id_In in Hin. destruct Hin as [Hin Hid].
    split; [exact Hin|]. split; [now rewrite Hid|reflexivity].
Qed.

(** GET /users with a logged-in session and a working connection answers
    200 with one snapshot per row of the table, in the order of the table;
    an empty table gives the empty list.  The table is not changed. *)
Theorem getUserlist_lists_every_row :
  forall (env : Env) (body : Body.t) (w : World) (user : User.t),
    Session.user (session w) = Some user ->
    fault env = None ->
    app env (Request.make GET_users body) w =
    (res 200 (MessageUserList "Successfully requested user list"
                (map row_user (userlist (database w)))),
     log SelectAll w).
Proof.
  intros env body w user Hu Hf. unfold app. cbn [route Request.endpoint].
  rewrite (session_reaches_handler _ _ _ _ user Hu).
  unfold getUserlist, query, database_query. rewrite Hf. reflexivity.
Qed.

(** *** Who can change the table *)

Lemma database_query_online {A : Type} (env : Env) (s : Statement A)
    (w : World) :
  fault env = None ->
  database_query env s w =
  (fst (execute s (database w)),
   with_database (snd (execute s (database w))) (log s w)).
Proof.
  intros Hf. unfold database_query. rewrite Hf. cbn [database log].
  destruct (execute s (database w)); reflexivity.
Qed.

Lemma reads_keep_database (env : Env) (req : Request.t) (w : World)
    (next : World -> Outcome * World) :
  database (snd (getLogin env req w next)) = database w
  /\ database (snd (login env req w next)) = database w
  /\ database (snd (logout env req w next)) = database w
  /\ (forall userId,
        database (snd (getUserfromId userId env req w next)) = database w)
  /\ database (snd (getUserlist env req w next)) = database w.
Proof.
  split; [reflexivity|]. split.
  - rewrite login_unfold. cbv zeta.
    assert (Hd : database (snd (database_query env
                   (SelectLogin (Body.username (Request.body req))
                      (digest (Body.password (Request.body req)))) w))
                 = database w).
    { rewrite database_query_database. destruct (fault env); reflexivity. }
    destruct (fst (database_query env _ w)) as [[|row [|row' rows]]|e r];
      exact Hd.
  - split; [reflexivity|]. split.
    + intros userId. rewrite getUserfromId_unfold. cbn [snd].
      rewrite database_query_database. destruct (fault env); [reflexivity|].
      cbn [execute]. unfold select_by_id.
      destruct (StringToNumber userId); reflexivity.
    + unfold getUserlist. rewrite query_unfold.
      assert (Hd : database (snd (database_query env SelectAll w))
                   = database w).
      { rewrite database_query_database. destruct (fault env); reflexivity. }
      destruct (fst (database_query env SelectAll w)); exact Hd.
Qed.

Lemma table_kept_without_privilege (env : Env) (req : Request.t) (w : World) :
  role_guarded (Request.endpoint req) = false \/ privileged w = false ->
  database (snd (app env req w)) = database w.
Proof.
  intros H. unfold app.
  destruct (reads_keep_database env req w (fun w' => (Fallthrough, w')))
    as (H1 & H2 & H3 & H5 & H8).
  assert (Hstop : forall handler,
            privileged w = false ->
            database
              (snd (run_chain
                      [isLoggedIn; isPrivilegedAtLeast Rights.Admin; handler]
                      env req w)) = database w).
  { intros handler Hp. cbn [run_chain].
    unfold isLoggedIn, isPrivilegedAtLeast, privileged in *.
    destruct (Session.user (session w)) as [user|]; [|reflexivity].
    destruct (js_gt _ _); [reflexivity|discriminate Hp]. }
  destruct (Request.endpoint req) as [| | | |userId|userId|userId|];
    cbn [role_guarded] in H; cbn [route];
    try (destruct H as [H|H]; [discriminate H|now apply Hstop]);
    cbn [run_chain]; try assumption;
    unfold isLoggedIn; destruct (Session.user (session w));
    solve [reflexivity | assumption | apply H5].
Qed.

(** The table is changed by no request to a route without the role guard,
    by no request whose session holds no user, and by no request whose
    session user has rights whose number is below the ordinal of Admin. *)
Theorem table_changes_need_privilege :
  forall (env : Env) (req : Request.t) (w : World),
    role_guarded (Request.endpoint req) = false
    \/ Session.user (session w) = None
    \/ (exists user n,
          Session.user (session w) = Some user
          /\ Number (User.rights user) = Num n
          /\ n < Rights.ordinal Rights.Admin) ->
    database (snd (app env req w)) = database w.
Proof.
  intros env req w H. apply table_kept_without_privilege.
  destruct H as [H|[H|(user & n & Hu & Hn & Hlt)]]; [now left| |];
    right; unfold privileged; rewrite ?H, ?Hu; [reflexivity|].
  rewrite Hn. unfold js_gt. rewrite Z.gtb_ltb.
  destruct (Z.ltb_spec n (Rights.ordinal Rights.Admin)); [reflexivity|lia].
Qed.

(** A session user whose rights are no number gets through the role guard
    for every minimum: the comparison with NaN is false.  Such a session
    passes both guards of the privileged routes. *)
Theorem isPrivilegedAtLeast_passes_not_a_number :
  forall (env : Env) (req : Request.t) (w : World) (user : User.t)
         (minimum : Rights.t),
    Session.user (session w) = Some user ->
    Number (User.rights user) = NaN ->
    (forall next, isPrivilegedAtLeast minimum env req w next = next w)
    /\ privileged w = true.
Proof.
  intros env req w user minimum Hu Hn. split.
  - intros next. unfold isPrivilegedAtLeast. now rewrite Hu, Hn.
  - unfold privileged. now rewrite Hu, Hn.
Qed.

(** *** Sessions across requests *)

(** After a POST /login for which the driver returned exactly one row, a
    GET /login on the world it left answers 200 with the snapshot of that
    row, whatever the environment and body of the second request. *)
Theorem login_then_getLogin :
  forall (env env' : Env) (body body' : Body.t) (w : World) (row : Row.t),
    fst (database_query env
           (SelectLogin (Body.username body) (digest (Body.password body))) w)
    = Success [row] ->
    let w1 := snd (app env (Request.make POST_login body) w) in
    app env' (Request.make GET_login body') w1 =
    (res 200 (MessageUser "User still logged in" (Some (login_user row))),
     w1).
Proof.
  intros env env' body body' w row Hq. cbv zeta.
  assert (Hu : Session.user
                 (session (snd (app env (Request.make POST_login body) w)))
               = Some (login_user row)).
  { unfold app. cbn [route Request.endpoint run_chain].
    rewrite login_unfold. cbv zeta. cbn [Request.body]. rewrite Hq.
    reflexivity. }
  unfold app at 1 3. cbn [route Request.endpoint].
  rewrite (session_reaches_handler _ _ _ _ _ Hu).
  unfold getLogin. now rewrite Hu.
Qed.

(** After a POST /logout every request to a session-guarded route is
    answered 401, whoever was logged in before, and leaves the world the
    logout left. *)
Theorem logout_then_guarded_route :
  forall (env env' : Env) (body : Body.t) (req : Request.t) (w : World),
    session_guarded (Request.endpoint req) = true ->
    let w1 := snd (app env (Request.make POST_logout body) w) in
    app env' req w1 =
    (res 401 (Message "Session expired, please log in again"), w1).
Proof.
  intros env env' body req w Hg. cbv zeta.
  destruct (guarded_route_head _ Hg) as [rest Hr].
  unfold app at 1 3. rewrite Hr. cbn [run_chain].
  now apply isLoggedIn_stop.
Qed.

Lemma database_query_with_session {A : Type} (env : Env) (s : Statement A)
    (s0 : Session.t) (w : World) :
  database_query env s (with_session s0 w) =
  (fst (database_query env s w),
   with_session s0 (snd (database_query env s w))).
Proof.
  unfold database_query. destruct (fault env); [reflexivity|].
  cbn [database log with_session].
  destruct (execute s (database w)); reflexivity.
Qed.

(** The answer of POST /login does not depend on the session the request
    comes with, and when the driver returns exactly one row neither does
    the session it leaves: a login replaces whoever was logged in. *)
Theorem login_ignores_prior_session :
  forall (env : Env) (body : Body.t) (w : World) (prior : Session.t),
    fst (app env (Request.make POST_login body) (with_session prior w))
    = fst (app env (Request.make POST_login body) w)
    /\ forall row,
         fst (database_query env
                (SelectLogin (Body.username body)
                   (digest (Body.password body))) w)
         = Success [row] ->
         session (snd (app env (Request.make POST_login body)
                         (with_session prior w)))
         = session (snd (app env (Request.make POST_login body) w)).
Proof.
  intros env body w prior. unfold app.
  cbn [route Request.endpoint run_chain].
  rewrite !login_unfold. cbv zeta. cbn [Request.body].
  rewrite database_query_with_session. cbn [fst snd].
  split.
  - destruct (fst (database_query env _ w)) as [[|row [|row' rows]]|e r];
      reflexivity.
  - intros row Hq. rewrite Hq. reflexivity.
Qed.

(** *** Deleting *)

Lemma filter_keep_all {A : Type} (l : list A) : filter (fun _ => true) l = l.
Proof. induction l as [|x l IH]; simpl; [reflexivity|now rewrite IH]. Qed.

Lemma filter_has_id_deleted (z : Z) (rows : list Row.t) :
  filter (has_id z) (filter (fun r => negb (has_id z r)) rows) = [].
Proof.
  induction rows as [|r rows IH]; simpl; [reflexivity|].
  destruct (has_id z r) eqn:Hr; simpl; [exact IH|now rewrite Hr].
Qed.

Lemma count_id_zero_filter (z : Z) (rows : list Row.t) :
  count_id z rows = 0 -> filter (fun r => negb (has_id z r)) rows = rows.
Proof.
  unfold count_id. induction rows as [|r rows IH]; simpl; [reflexivity|].
  destruct (has_id z r); simpl; intros H; [lia|].
  now rewrite IH.
Qed.

Lemma deleteUser_online (env : Env) (userId : string) (body : Body.t)
    (w : World) (z : Z) :
  privileged w = true ->
  fault env = None ->
  StringToNumber userId = Num z ->
  app env (Request.make (DELETE_user userId) body) w =
  (if count_id z (userlist (database w)) =? 1
   then res 200 (Message "Successfully deleted user ")
   else res 400 (Message "The user to be deleted could not be found"),
   with_database
     {| userlist :=
          filter (fun r => negb (has_id z r)) (userlist (database w));
        auto_increment := auto_increment (database w) |}
     (log (DeleteById (Num z)) w)).
Proof.
  intros Hp Hf Hz. unfold app. cbn [route Request.endpoint].
  rewrite (privileged_reaches_handler _ _ _ _ Hp), deleteUser_unfold.
  cbv zeta. rewrite Hz, (database_query_online _ _ _ Hf).
  cbn [execute delete_by_id fst snd affectedRows].
  destruct (count_id z (userlist (database w)) =? 1); reflexivity.
Qed.

Lemma getUserfromId_online (env : Env) (userId : string) (body : Body.t)
    (w : World) (user : User.t) (z : Z) :
  Session.user (session w) = Some user ->
  fault env = None ->
  StringToNumber userId = Num z ->
  fst (app env (Request.make (GET_user userId) body) w) =
  match filter (has_id z) (userlist (database w)) with
  | [row] =>
      res 200 (MessageUser "Successfully got user" (Some (row_user row)))
  | _ => res 404 (Message "The requested user can not be found.")
  end.
Proof.
  intros Hu Hf Hz. unfold app. cbn [route Request.endpoint].
  rewrite (session_reaches_handler _ _ _ _ user Hu), getUserfromId_unfold.
  cbv zeta. rewrite Hz, (database_query_online _ _ _ Hf).
  cbn [execute select_by_id fst].
  destruct (filter (has_id z) (userlist (database w)))
    as [|row [|row' rows]]; reflexivity.
Qed.

(** After a DELETE /user/:userId by a privileged session over a working
    connection, for an id that is a number, a GET /user/:userId answers 404
    and a second DELETE answers 400 "could not be found", whether or not
    the first one found a row. *)
Theorem delete_then_not_found :
  forall (env env' : Env) (userId : string) (body body' : Body.t) (w : World)
         (z : Z),
    privileged w = true ->
    fault env = None ->
    fault env' = None ->
    StringToNumber userId = Num z ->
    let w1 := snd (app env (Request.make (DELETE_user userId) body) w) in
    fst (app env' (Request.make (GET_user userId) body') w1)
    = res 404 (Message "The requested user can not be found.")
    /\ fst (app env' (Request.make (DELETE_user userId) body') w1)
       = res 400 (Message "The user to be deleted could not be found").
Proof.
  intros env env' userId body body' w z Hp Hf Hf' Hz. cbv zeta.
  rewrite (deleteUser_online env userId body w z Hp Hf Hz). cbn [snd].
  destruct (privileged_user w Hp) as (user & Hu & Hgt).
  split.
  - rewrite (getUserfromId_online env' userId body' _ user z);
      [|exact Hu|exact Hf'|exact Hz].
    cbn [database with_database userlist].
    now rewrite filter_has_id_deleted.
  - rewrite (deleteUser_online env' userId body' _ z);
      [|exact Hp|exact Hf'|exact Hz].
    cbn [fst database with_database userlist]. unfold count_id.
    now rewrite filter_has_id_deleted.
Qed.

Lemma deleteUser_world (env : Env) (userId : string) (req : Request.t)
    (w : World) (next : World -> Outcome * World) :
  snd (deleteUser userId env req w next) =
  snd (database_query env (DeleteById (StringToNumber userId)) w).
Proof.
  rewrite deleteUser_unfold. cbv zeta.
  destruct (fst (database_query env _ w)) as [result|e r]; [|reflexivity].
  destruct (affectedRows result =? 1); reflexivity.
Qed.

(** A DELETE /user/:userId by a privileged session leaves a table whose
    rows are rows of the table before, in their order, with every row of
    another id among them, and keeps the id counter; when the driver
    reports zero affected rows the table is the one before. *)
Theorem delete_removes_only_that_id :
  forall (env : Env) (userId : string) (body : Body.t) (w : World),
    privileged w = true ->
    let w1 := snd (app env (Request.make (DELETE_user userId) body) w) in
    (exists keep,
       userlist (database w1) = filter keep (userlist (database w))
       /\ forall r, StringToNumber userId <> Num (Row.id r) -> keep r = true)
    /\ auto_increment (database w1) = auto_increment (database w)
    /\ forall result,
         fst (database_query env (DeleteById (StringToNumber userId)) w)
         = Success result ->
         affectedRows result = 0 ->
         database w1 = database w.
Proof.
  intros env userId body w Hp. cbv zeta. unfold app.
  cbn [route Request.endpoint].
  rewrite (privileged_reaches_handler _ _ _ _ Hp), deleteUser_world.
  rewrite database_query_database.
  unfold database_query.
  destruct (fault env) as [e|].
  - split; [|split; [reflexivity|discriminate]].
    exists (fun _ => true). split; [now rewrite filter_keep_all|reflexivity].
  - cbn [execute database log]. unfold delete_by_id.
    destruct (StringToNumber userId) as [z|] eqn:Hz.
    + cbn [fst snd userlist auto_increment].
      split; [|split; [reflexivity|]].
      * exists (fun r => negb (has_id z r)). split; [reflexivity|].
        intros r Hne. unfold has_id.
        destruct (Z.eqb_spec (Row.id r) z) as [Heq|Hdiff]; [|reflexivity].
        exfalso. apply Hne. now rewrite Heq.
      * intros result Hr Ha. inversion Hr; subst result.
        cbn [affectedRows] in Ha.
        rewrite (count_id_zero_filter _ _ Ha).
        destruct (database w); reflexivity.
    + cbn [fst snd]. split; [|split; [reflexivity|discriminate]].
      exists (fun _ => true).
      split; [now rewrite filter_keep_all|reflexivity].
Qed.

(** *** Round trips through the table *)

Lemma filter_map_stable {A : Type} (p : A -> bool) (f : A -> A)
    (l : list A) :
  (forall x, p (f x) = p x) -> filter p (map f l) = map f (filter p l).
Proof.
  intros Hp. induction l as [|x l IH]; simpl; [reflexivity|].
  rewrite Hp. destruct (p x); simpl; now rewrite IH.
Qed.

Lemma filter_has_id_renamed (z : Z) (f l : JsString) (rows : list Row.t) :
  filter (has_id z)
         (map (fun r => if has_id z r then Row.set_names f l r else r) rows)
  = map (Row.set_names f l) (filter (has_id z) rows).
Proof.
  induction rows as [|r rows IH]; simpl; [reflexivity|].
  destruct (has_id z r) eqn:Hr.
  - assert (Hr' : has_id z (Row.set_names f l r) = true) by exact Hr.
    rewrite Hr'. simpl. now rewrite IH.
  - rewrite Hr. exact IH.
Qed.

Lemma count_id_one (z : Z) (rows : list Row.t) :
  count_id z rows = 1 -> exists row, filter (has_id z) rows = [row].
Proof.
  unfold count_id.
  destruct (filter (has_id z) rows) as [|row [|row' more]]; simpl; intros H;
    try lia.
  now exists row.
Qed.

Lemma put_user_online (env : Env) (userId : string) (body : Wire.t)
    (w : World) (message f l : string) :
  privileged w = true ->
  Wire.firstName body = VString f ->
  Wire.lastName body = VString l ->
  fst (put_user env userId body w) = res 200 (Message message) ->
  exists z,
    StringToNumber userId = Num z
    /\ count_id z (userlist (database w)) = 1
    /\ session (snd (put_user env userId body w)) = session w
    /\ database (snd (put_user env userId body w))
       = {| userlist :=
              map (fun r => if has_id z r
                            then Row.set_names (Some f) (Some l) r
                            else r) (userlist (database w));
            auto_increment := auto_increment (database w) |}.
Proof.
  intros Hp Hf Hl. rewrite (put_user_privileged _ _ _ _ Hp).
  unfold update_values_of. rewrite Hf, Hl.
  destruct (truthy_value (VString f) && truthy_value (VString l));
    [|discriminate].
  unfold query_values. destruct (fault env) as [e|]; [discriminate|].
  cbn [execute_values database log_values].
  rewrite update_values_strings. unfold update_names.
  destruct (StringToNumber userId) as [z|]; [|discriminate].
  cbn [fst snd affectedRows].
  destruct (Z.eqb_spec (count_id z (userlist (database w))) 1) as [Hc|Hc];
    [|discriminate].
  intros _. exists z. repeat split. exact Hc.
Qed.

(** After a PUT /user/:userId with strings as first and last name that was
    answered 200, a GET /user/:userId over a working connection answers 200
    with the snapshot of a row of the table before, carrying the id of the
    request and the two strings as first and last name. *)
Theorem update_then_get :
  forall (env env' : Env) (userId : string) (body : Wire.t) (body' : Body.t)
         (w : World) (message f l : string),
    privileged w = true ->
    Wire.firstName body = VString f ->
    Wire.lastName body = VString l ->
    fault env' = None ->
    fst (put_user env userId body w) = res 200 (Message message) ->
    let w1 := snd (put_user env userId body w) in
    exists row,
      In row (userlist (database w))
      /\ StringToNumber userId = Num (Row.id row)
      /\ fst (app env' (Request.make (GET_user userId) body') w1)
         = res 200 (MessageUser "Successfully got user"
                      (Some (row_user
                               (Row.set_names (Some f) (Some l) row)))).
Proof.
  intros env env' userId body body' w message f l Hp Hf Hl Hf' Hok.
  cbv zeta.
  destruct (put_user_online env userId body w message f l Hp Hf Hl Hok)
    as (z & Hz & Hc & Hs & Hd).
  destruct (count_id_one _ _ Hc) as [row Hrow].
  destruct (privileged_user w Hp) as (user & Hu & _).
  exists row.
  assert (Hin : In row (filter (has_id z) (userlist (database w))))
    by (rewrite Hrow; now left).
  apply filter_has_id_In in Hin. destruct Hin as [Hin Hid].
  split; [exact Hin|]. split; [now rewrite Hid|].
  rewrite (getUserfromId_online env' userId body' _ user z);
    [|now rewrite Hs|exact Hf'|exact Hz].
  rewrite Hd. cbn [userlist].
  now rewrite filter_has_id_renamed, Hrow.
Qed.

Lemma createUser_online (env : Env) (body : Body.t) (w : World)
    (message : string) :
  privileged w = true ->
  truthy (Body.firstName body) && truthy (Body.lastName body) = true ->
  fst (app env (Request.make POST_user body) w) = res 201 (Message message) ->
  existsb (fun row => same_username (Row.username row) (Body.username body))
          (userlist (database w)) = false
  /\ session (snd (app env (Request.make POST_user body) w)) = session w
  /\ database (snd (app env (Request.make POST_user body) w))
     = {| userlist :=
            userlist (database w) ++
            [Row.make (auto_increment (database w)) (now env)
               (Body.username body) (digest (Body.password body))
               (Body.firstName body) (Body.lastName body)
               (DbInt (Rights.ordinal Rights.User))];
          auto_increment := auto_increment (database w) + 1 |}.
Proof.
  intros Hp Ht. unfold app. cbn [route Request.endpoint].
  rewrite (privileged_reaches_handler _ _ _ _ Hp).
  rewrite createUser_answer, createUser_unfold by exact Ht.
  cbn [Request.body]. rewrite database_query_session.
  unfold database_query. destruct (fault env) as [e|]; [discriminate|].
  cbn [execute database log]. unfold insert_user.
  destruct (existsb _ (userlist (database w))); [discriminate|].
  intros _. repeat split.
Qed.

Lemma getUserlist_online (env : Env) (body : Body.t) (w : World)
    (user : User.t) :
  Session.user (session w) = Some user ->
  fault env = None ->
  fst (app env (Request.make GET_users body) w) =
  res 200 (MessageUserList "Successfully requested user list"
             (map row_user (userlist (database w)))).
Proof.
  intros Hu Hf. unfold app. cbn [route Request.endpoint].
  rewrite (session_reaches_handler _ _ _ _ user Hu).
  unfold getUserlist, query, database_query. rewrite Hf. reflexivity.
Qed.

(** After a POST /user that was answered 201, a GET /users over a working
    connection answers 200 with a list that holds the snapshot of every row
    that was in the table and the snapshot of the new user, and has one
    entry more than the table had rows.  The new snapshot has the id
    counter of the table before as id, the username and names of the body,
    the time of the request as date and the rights of [Rights.User]. *)
Theorem create_then_list :
  forall (env env' : Env) (body body' : Body.t) (w : World)
         (message : string),
    privileged w = true ->
    truthy (Body.firstName body) && truthy (Body.lastName body) = true ->
    fault env' = None ->
    fst (app env (Request.make POST_user body) w)
    = res 201 (Message message) ->
    let w1 := snd (app env (Request.make POST_user body) w) in
    exists listed,
      fst (app env' (Request.make GET_users body') w1)
      = res 200 (MessageUserList "Successfully requested user list" listed)
      /\ In (User.new (auto_increment (database w)) (Body.username body)
               (Body.firstName body) (Body.lastName body)
               (DateOf (now env)) (DbInt (Rights.ordinal Rights.User)))
            listed
      /\ (forall row,
            In row (userlist (database w)) -> In (row_user row) listed)
      /\ List.length listed = S (List.length (userlist (database w))).
Proof.
  intros env env' body body' w message Hp Ht Hf' Hok. cbv zeta.
  destruct (createUser_online env body w message Hp Ht Hok)
    as (_ & Hs & Hd).
  destruct (privileged_user w Hp) as (user & Hu & _).
  rewrite (getUserlist_online env' body' _ user);
    [|now rewrite Hs|exact Hf'].
  rewrite Hd. cbn [userlist]. eexists. split; [reflexivity|].
  rewrite map_app. cbn [map]. split; [|split].
  - apply in_or_app. right. now left.
  - intros row Hin. apply in_or_app. left. now apply in_map.
  - rewrite length_app, length_map. cbn [List.length]. lia.
Qed.

Lemma no_username_no_login (u : string) (p : string) (rows : list Row.t) :
  existsb (fun row => same_username (Row.username row) (Some u)) rows = false ->
  filter (matches_login (Some u) p) rows = [].
Proof.
  induction rows as [|r rows IH]; simpl; [reflexivity|].
  intros H. apply orb_false_iff in H. destruct H as [Hr Hrows].
  unfold matches_login at 1. rewrite Hr. simpl. now apply IH.
Qed.

Lemma login_online (env : Env) (body : Body.t) (w : World) :
  fault env = None ->
  app env (Request.make POST_login body) w =
  match filter (matches_login (Body.username body)
                  (digest (Body.password body))) (userlist (database w)) with
  | [row] =>
      (res 200 (MessageUser "Successfully logged in" (Some (login_user row))),
       with_session (Session.make (Some (login_user row)))
         (log (SelectLogin (Body.username body)
                 (digest (Body.password body))) w))
  | _ =>
      (res 401 (Message "Username or password is incorrect."),
       log (SelectLogin (Body.username body) (digest (Body.password body))) w)
  end.
Proof.
  intros Hf. unfold app. cbn [route Request.endpoint run_chain].
  rewrite login_unfold. cbv zeta. cbn [Request.body].
  rewrite (database_query_online _ _ _ Hf). cbn [execute fst snd].
  destruct (filter _ (userlist (database w))) as [|row [|row' rows]];
    try reflexivity; destruct w; reflexivity.
Qed.

(** After a POST /user with a username that was answered 201, a POST /login
    with that username and the same password over a working connection
    answers 200 with the snapshot of the new user, and the session it
    leaves does not get through the guards of a privileged route. *)
Theorem create_then_login :
  forall (env env' : Env) (body credentials : Body.t) (w : World)
         (message : string) (u : string),
    privileged w = true ->
    truthy (Body.firstName body) && truthy (Body.lastName body) = true ->
    Body.username body = Some u ->
    Body.username credentials = Some u ->
    Body.password credentials = Body.password body ->
    fault env' = None ->
    fst (app env (Request.make POST_user body) w)
    = res 201 (Message message) ->
    let w1 := snd (app env (Request.make POST_user body) w) in
    let w2 := snd (app env' (Request.make POST_login credentials) w1) in
    fst (app env' (Request.make POST_login credentials) w1)
    = res 200
        (MessageUser "Successfully logged in"
           (Some (User.new (auto_increment (database w)) (Some u)
                    (Body.firstName body) (Body.lastName body) InvalidDate
                    (DbInt (Rights.ordinal Rights.User)))))
    /\ privileged w2 = false.
Proof.
  intros env env' body credentials w message u Hp Ht Hu Hcu Hcp Hf' Hok.
  cbv zeta.
  destruct (createUser_online env body w message Hp Ht Hok)
    as (Hnew & _ & Hd).
  rewrite Hu in Hnew, Hd.
  rewrite (login_online env' credentials _ Hf'), Hd, Hcu, Hcp.
  cbn [userlist].
  rewrite filter_app, (no_username_no_login _ _ _ Hnew).
  cbn [filter app]. unfold matches_login.
  cbn [Row.username Row.password same_username].
  rewrite !String.eqb_refl. cbn [andb fst snd].
  split; reflexivity.
Qed.

(** *** What every request does *)

Lemma handlers_issue_at_most_one (env : Env) (req : Request.t) (w : World)
    (next : World -> Outcome * World) :
  let quiet (w' : World) :=
    (issued w' = issued w /\ database w' = database w)
    \/ exists s, issued w' = issued w ++ [s] in
  quiet (snd (getLogin env req w next))
  /\ quiet (snd (login env req w next))
  /\ quiet (snd (logout env req w next))
  /\ quiet (snd (createUser env req w next))
  /\ (forall userId, quiet (snd (getUserfromId userId env req w next)))
  /\ (forall userId, quiet (snd (update userId env req w next)))
  /\ (forall userId, quiet (snd (deleteUser userId env req w next)))
  /\ quiet (snd (getUserlist env req w next)).
Proof.
  cbv zeta.
  unfold getLogin, login, logout, createUser, getUserfromId, update,
    deleteUser, getUserlist.
  repeat split; settle_handler; cbn [snd];
    first [ left; split; reflexivity
          | right; eexists; apply database_query_issued ].
Qed.

(** Every request hands at most one statement to the driver, after those
    handed over before; a request that hands over none leaves the table as
    it was. *)
Theorem one_statement_per_request :
  forall (env : Env) (req : Request.t) (w : World),
    let w' := snd (app env req w) in
    (issued w' = issued w /\ database w' = database w)
    \/ exists s, issued w' = issued w ++ [s].
Proof.
  intros env req w. cbv zeta. unfold app.
  destruct (handlers_issue_at_most_one env req w (fun w' => (Fallthrough, w')))
    as (H1 & H2 & H3 & H4 & H5 & H6 & H7 & H8).
  cbv zeta in H1, H2, H3, H4, H5, H6, H7, H8.
  destruct (Request.endpoint req) as [| | | |userId|userId|userId|];
    cbn [route run_chain]; try assumption;
    unfold isLoggedIn;
    (destruct (Session.user (session w)) as [user|] eqn:Hu;
     [|left; split; reflexivity]);
    unfold isPrivilegedAtLeast; rewrite ?Hu;
    try (destruct (js_gt _ _); [left; split; reflexivity|]);
    solve [assumption | apply H5 | apply H6 | apply H7].
Qed.

(** *** The password column *)

Lemma count_id_rewrite_passwords (z : Z) (g : Row.t -> string)
    (rows : list Row.t) :
  count_id z (map (fun r => Row.set_password (g r) r) rows) = count_id z rows.
Proof.
  unfold count_id. rewrite filter_map_stable by reflexivity.
  now rewrite length_map.
Qed.

Lemma existsb_rewrite_passwords (u : JsString) (g : Row.t -> string)
    (rows : list Row.t) :
  existsb (fun row => same_username (Row.username row) u)
          (map (fun r => Row.set_password (g r) r) rows)
  = existsb (fun row => same_username (Row.username row) u) rows.
Proof.
  induction rows as [|r rows IH]; simpl; [reflexivity|]. now rewrite IH.
Qed.

Lemma answers_ignore_passwords (env : Env) (req : Request.t) (w : World)
    (g : Row.t -> string) (next : World -> Outcome * World) :
  let w2 := with_database (rewrite_passwords g (database w)) w in
  fst (createUser env req w2 next) = fst (createUser env req w next)
  /\ (forall userId,
        fst (getUserfromId userId env req w2 next)
        = fst (getUserfromId userId env req w next))
  /\ (forall userId,
        fst (update userId env req w2 next) = fst (update userId env req w next))
  /\ (forall userId,
        fst (deleteUser userId env req w2 next)
        = fst (deleteUser userId env req w next))
  /\ fst (getUserlist env req w2 next) = fst (getUserlist env req w next).
Proof.
  cbv zeta. repeat split.
  - unfold createUser.
    destruct (truthy (Body.firstName (Request.body req))
              && truthy (Body.lastName (Request.body req))); [|reflexivity].
    unfold query, database_query.
    destruct (fault env) as [e|]; [reflexivity|].
    cbn [execute database log with_database]. unfold insert_user.
    cbn [rewrite_passwords userlist auto_increment].
    rewrite existsb_rewrite_passwords.
    destruct (existsb _ (userlist (database w))); reflexivity.
  - intros userId. rewrite !getUserfromId_unfold. cbn [fst].
    unfold database_query. destruct (fault env) as [e|]; [reflexivity|].
    cbn [execute database log with_database]. unfold select_by_id.
    destruct (StringToNumber userId) as [z|]; [|reflexivity].
    cbn [fst rewrite_passwords userlist].
    rewrite filter_map_stable by reflexivity.
    destruct (filter (has_id z) (userlist (database w)))
      as [|row [|row' rows]]; reflexivity.
  - intros userId. unfold update.
    destruct (truthy (Body.firstName (Request.body req))
              && truthy (Body.lastName (Request.body req))); [|reflexivity].
    unfold query, database_query.
    destruct (fault env) as [e|]; [reflexivity|].
    cbn [execute database log with_database]. unfold update_names.
    destruct (StringToNumber userId) as [z|]; [|reflexivity].
    cbn [rewrite_passwords userlist auto_increment affectedRows].
    rewrite count_id_rewrite_passwords.
    destruct (negb (count_id z (userlist (database w)) =? 1)); reflexivity.
  - intros userId. unfold deleteUser, query, database_query.
    destruct (fault env) as [e|]; [reflexivity|].
    cbn [execute database log with_database]. unfold delete_by_id.
    destruct (StringToNumber userId) as [z|]; [|reflexivity].
    cbn [rewrite_passwords userlist auto_increment affectedRows].
    rewrite count_id_rewrite_passwords.
    destruct (count_id z (userlist (database w)) =? 1); reflexivity.
  - unfold getUserlist, query, database_query.
    destruct (fault env) as [e|]; [reflexivity|].
    cbn [execute database log with_database fst rewrite_passwords userlist].
    rewrite map_map. reflexivity.
Qed.

(** Apart from POST /login, no answer depends on the password column: a
    request gets the same answer from a table whose password digests have
    been replaced by any others. *)
Theorem answers_do_not_read_passwords :
  forall (env : Env) (req : Request.t) (w : World) (g : Row.t -> string),
    Request.endpoint req <> POST_login ->
    fst (app env req (with_database (rewrite_passwords g (database w)) w))
    = fst (app env req w).
Proof.
  intros env req w g Hne. unfold app.
  destruct (answers_ignore_passwords env req w g
              (fun w' => (Fallthrough, w')))
    as (H4 & H5 & H6 & H7 & H8).
  cbv zeta in H4, H5, H6, H7, H8.
  destruct (Request.endpoint req) as [| | | |userId|userId|userId|];
    cbn [route run_chain]; try reflexivity; try (now elim Hne);
    unfold isLoggedIn; cbn [session with_database];
    (destruct (Session.user (session w)) as [user|] eqn:Hu;
     [|reflexivity]);
    unfold isPrivilegedAtLeast; cbn [session with_database]; rewrite ?Hu;
    try (destruct (js_gt _ _); [reflexivity|]);
    solve [reflexivity | assumption | apply H5 | apply H6 | apply H7].
Qed.

End Server.

(** ** The theorems at sample requests *)

(** GET /users without a session, on the sample table. *)
Lemma isLoggedIn_rejects_missing_session_witness :
  session_guarded GET_users = true
  /\ Session.user (session Sample.anonymous) = None
  /\ app Sample.SHA512 Sample.StringToNumber Sample.online
       (Request.make GET_users Sample.no_body) Sample.anonymous
     = (res 401 (Message "Session expired, please log in again"),
        Sample.anonymous).
Proof.
  split; [reflexivity|]. split; [reflexivity|].
  exact (proj1 (isLoggedIn_rejects_missing_session
                  Sample.SHA512 Sample.StringToNumber Sample.online
                  (Request.make GET_users Sample.no_body) Sample.anonymous
                  eq_refl eq_refl)).
Defined.

(** PUT /user/1 by a standard user (ordinal 0), and the guard on the session
    of the administrator (ordinal 1, stored as text). *)
Lemma isPrivilegedAtLeast_compares_ordinals_witness :
  (Session.user (session Sample.as_hans)
     = Some (row_user Sample.hans_row)
   /\ Number Sample.StringToNumber
        (User.rights (row_user Sample.hans_row)) = Num 0
   /\ app Sample.SHA512 Sample.StringToNumber Sample.online
        (Request.make (PUT_user "1") (Sample.names "Eve" "Root"))
        Sample.as_hans
      = (res 403 (Message "You are not allowed to execute this action"),
         Sample.as_hans))
  /\ (Session.user (session Sample.as_admin)
        = Some (row_user Sample.admin_row)
      /\ Number Sample.StringToNumber
           (User.rights (row_user Sample.admin_row)) = Num 1
      /\ forall next,
           isPrivilegedAtLeast Sample.StringToNumber Rights.Admin
             Sample.online (Request.make POST_user Sample.no_body)
             Sample.as_admin next
           = next Sample.as_admin).
Proof.
  split.
  - split; [reflexivity|]. split; [reflexivity|].
    apply (proj2 (proj2 (isPrivilegedAtLeast_compares_ordinals
                           Sample.SHA512 Sample.StringToNumber Sample.online
                           (Request.make (PUT_user "1")
                              (Sample.names "Eve" "Root"))
                           Sample.as_hans (row_user Sample.hans_row) 0
                           Rights.Admin eq_refl eq_refl)));
      [reflexivity|simpl; lia].
  - split; [reflexivity|]. split; [reflexivity|].
    apply (proj1 (proj2 (isPrivilegedAtLeast_compares_ordinals
                           Sample.SHA512 Sample.StringToNumber Sample.online
                           (Request.make POST_user Sample.no_body)
                           Sample.as_admin (row_user Sample.admin_row) 1
                           Rights.Admin eq_refl eq_refl))).
    simpl; lia.
Defined.


(** POST /user by the administrator: the row for Erika is appended with
    rights 0. *)
Lemma createUser_fixes_role_witness :
  privileged Sample.StringToNumber Sample.as_admin = true
  /\ truthy (Body.firstName (Sample.names "Erika" "Musterfrau"))
     && truthy (Body.lastName (Sample.names "Erika" "Musterfrau")) = true
  /\ issued (snd (app Sample.SHA512 Sample.StringToNumber Sample.online
                    (Request.make POST_user
                       (Sample.names "Erika" "Musterfrau"))
                    Sample.as_admin))
     = issued Sample.as_admin ++
       [Issue (InsertUser (now Sample.online) None
                 (digest Sample.SHA512 None) (Some "Erika"%string)
                 (Some "Musterfrau"%string) Rights.User)].
Proof.
  split; [reflexivity|]. split; [reflexivity|].
  exact (proj1 (createUser_fixes_role
                  Sample.SHA512 Sample.StringToNumber Sample.online
                  (Sample.names "Erika" "Musterfrau") Sample.as_admin
                  eq_refl eq_refl)).
Defined.

(** DELETE /user/2 (one row affected), DELETE /user/42 (none affected) and
    DELETE /user/2 over a refused connection, by the administrator. *)
Lemma deleteUser_outcomes_witness :
  privileged Sample.StringToNumber Sample.as_admin = true
  /\ fst (app Sample.SHA512 Sample.StringToNumber Sample.online
            (Request.make (DELETE_user "2") Sample.no_body) Sample.as_admin)
     = res 200 (Message "Successfully deleted user ")
  /\ fst (app Sample.SHA512 Sample.StringToNumber Sample.online
            (Request.make (DELETE_user "42") Sample.no_body) Sample.as_admin)
     = res 400 (Message "The user to be deleted could not be found")
  /\ fst (app Sample.SHA512 Sample.StringToNumber
            (Sample.offline Sample.ECONNREFUSED)
            (Request.make (DELETE_user "2") Sample.no_body) Sample.as_admin)
     = res 500 (Message "Database request failed: undefined").
Proof.
  split; [reflexivity|]. split; [|split].
  - exact (proj1 (deleteUser_outcomes
                    Sample.SHA512 Sample.StringToNumber Sample.online "2"
                    Sample.no_body Sample.as_admin eq_refl) eq_refl).
  - exact (proj1 (proj2 (deleteUser_outcomes
                           Sample.SHA512 Sample.StringToNumber Sample.online
                           "42" Sample.no_body Sample.as_admin eq_refl)
                    eq_refl)).
  - exact (deleteUser_outcomes
             Sample.SHA512 Sample.StringToNumber
             (Sample.offline Sample.ECONNREFUSED) "2" Sample.no_body
             Sample.as_admin eq_refl).
Defined.

(** POST /user without a session: answered by the session guard. *)
Lemma role_guard_runs_after_session_guard_witness :
  role_guarded POST_user = true
  /\ exists handler,
       route Sample.SHA512 Sample.StringToNumber POST_user
       = [isLoggedIn; isPrivilegedAtLeast Sample.StringToNumber Rights.Admin;
          handler]
       /\ (Session.user (session Sample.anonymous) = None ->
           forall second,
             run_chain [isLoggedIn; second; handler] Sample.online
               (Request.make POST_user Sample.no_body) Sample.anonymous
             = (res 401 (Message "Session expired, please log in again"),
                Sample.anonymous)).
Proof.
  split; [reflexivity|].
  exact (proj2 (role_guard_runs_after_session_guard
                  Sample.SHA512 Sample.StringToNumber Sample.online
                  (Request.make POST_user Sample.no_body) Sample.anonymous)
           eq_refl).
Defined.

(** ** The update on the body as it came, at sample requests *)



(** ** The failure detail of the store *)

(** C5: with the connection refused, POST /login, GET /user/1,
    DELETE /user/1 and GET /users are each answered with status 500 and the
    text "Database request failed: undefined"; a lost connection gives the
    same text, so the answer does not carry the detail of the error. *)
Theorem store_failure_detail_is_dropped :
  fst (app Sample.SHA512 Sample.StringToNumber
         (Sample.offline Sample.ECONNREFUSED)
         (Request.make POST_login (Sample.credentials "admin" "secret"))
         Sample.anonymous)
  = res 500 (Message "Database request failed: undefined")
  /\ fst (app Sample.SHA512 Sample.StringToNumber
            (Sample.offline Sample.ECONNREFUSED)
            (Request.make (GET_user "1") Sample.no_body) Sample.as_hans)
     = res 500 (Message "Database request failed: undefined")
  /\ fst (app Sample.SHA512 Sample.StringToNumber
            (Sample.offline Sample.ECONNREFUSED)
            (Request.make (DELETE_user "1") Sample.no_body) Sample.as_admin)
     = res 500 (Message "Database request failed: undefined")
  /\ fst (app Sample.SHA512 Sample.StringToNumber
            (Sample.offline Sample.ECONNREFUSED)
            (Request.make GET_users Sample.no_body) Sample.as_hans)
     = res 500 (Message "Database request failed: undefined")
  /\ fst (app Sample.SHA512 Sample.StringToNumber
            (Sample.offline Sample.PROTOCOL_CONNECTION_LOST)
            (Request.make POST_login (Sample.credentials "admin" "secret"))
            Sample.anonymous)
     = fst (app Sample.SHA512 Sample.StringToNumber
              (Sample.offline Sample.ECONNREFUSED)
              (Request.make POST_login (Sample.credentials "admin" "secret"))
              Sample.anonymous).
Proof.
  repeat split.
Qed.

(** ** The further properties at sample requests *)

Local Abbreviation run := (app Sample.SHA512 Sample.StringToNumber).
Local Abbreviation erika := Bodies.erika.
Local Abbreviation nameless := Bodies.nameless.

Lemma getLogin_returns_session_user_witness :
  Session.user (session Sample.as_admin) = Some (row_user Sample.admin_row)
  /\ run Sample.online (Request.make GET_login Sample.no_body) Sample.as_admin
     = (res 200 (MessageUser "User still logged in"
                   (Some (row_user Sample.admin_row))), Sample.as_admin).
Proof.
  split; [reflexivity|].
  exact (getLogin_returns_session_user
           Sample.SHA512 Sample.StringToNumber Sample.online Sample.no_body
           Sample.as_admin (row_user Sample.admin_row) eq_refl).
Defined.

Lemma createUser_requires_names_witness :
  privileged Sample.StringToNumber Sample.as_admin = true
  /\ truthy (Body.firstName nameless) && truthy (Body.lastName nameless)
     = false
  /\ run Sample.online (Request.make POST_user nameless) Sample.as_admin
     = (res 400 (Message "Not all mandatory fields are filled in"),
        Sample.as_admin).
Proof.
  split; [reflexivity|]. split; [reflexivity|].
  exact (createUser_requires_names
           Sample.SHA512 Sample.StringToNumber Sample.online nameless
           Sample.as_admin eq_refl eq_refl).
Defined.

Lemma update_requires_names_witness :
  privileged Sample.StringToNumber Sample.as_admin = true
  /\ truthy (Body.firstName Sample.no_body)
     && truthy (Body.lastName Sample.no_body) = false
  /\ run Sample.online (Request.make (PUT_user "2") Sample.no_body)
       Sample.as_admin
     = (res 400 (Message "Not all mandatory fields are filled in"),
        Sample.as_admin).
Proof.
  split; [reflexivity|]. split; [reflexivity|].
  exact (update_requires_names
           Sample.SHA512 Sample.StringToNumber Sample.online "2"
           Sample.no_body Sample.as_admin eq_refl eq_refl).
Defined.

(** A new username is created; the username of a row of the table is not. *)
Lemma createUser_created_or_rejected_witness :
  privileged Sample.StringToNumber Sample.as_admin = true
  /\ truthy (Body.firstName erika) && truthy (Body.lastName erika) = true
  /\ fst (run Sample.online (Request.make POST_user erika) Sample.as_admin)
     = res 201 (Message "Successfully created new user")
  /\ fst (run Sample.online
            (Request.make POST_user
               (Body.make (Some "admin"%string) (Some "x"%string)
                          (Some "Eve"%string) (Some "Root"%string)))
            Sample.as_admin)
     = res 400 (Message "An error occured while creating the new user")
  /\ fst (run (Sample.offline Sample.ECONNREFUSED)
            (Request.make POST_user erika) Sample.as_admin)
     = res 400 (Message "An error occured while creating the new user").
Proof.
  split; [reflexivity|]. split; [reflexivity|]. split; [|split].
  - exact (createUser_created_or_rejected
             Sample.SHA512 Sample.StringToNumber Sample.online erika
             Sample.as_admin eq_refl eq_refl).
  - exact (createUser_created_or_rejected
             Sample.SHA512 Sample.StringToNumber Sample.online
             (Body.make (Some "admin"%string) (Some "x"%string)
                        (Some "Eve"%string) (Some "Root"%string))
             Sample.as_admin eq_refl eq_refl).
  - exact (createUser_created_or_rejected
             Sample.SHA512 Sample.StringToNumber
             (Sample.offline Sample.ECONNREFUSED) erika Sample.as_admin
             eq_refl eq_refl).
Defined.

(** A known id, an unknown id and a refused connection. *)
Lemma update_found_or_not_found_witness :
  privileged Sample.StringToNumber Sample.as_admin = true
  /\ truthy (Body.firstName (Sample.names "Hansi" "Muster"))
     && truthy (Body.lastName (Sample.names "Hansi" "Muster")) = true
  /\ fst (run Sample.online
            (Request.make (PUT_user "2") (Sample.names "Hansi" "Muster"))
            Sample.as_admin)
     = res 200 (Message "Successfully updated user Hansi Muster")
  /\ fst (run Sample.online
            (Request.make (PUT_user "42") (Sample.names "Hansi" "Muster"))
            Sample.as_admin)
     = res 400 (Message "The user to update could not be found")
  /\ fst (run (Sample.offline Sample.ECONNREFUSED)
            (Request.make (PUT_user "2") (Sample.names "Hansi" "Muster"))
            Sample.as_admin)
     = res 400 (Message "The user to update could not be found").
Proof.
  split; [reflexivity|]. split; [reflexivity|]. split; [|split].
  - exact (update_found_or_not_found
             Sample.SHA512 Sample.StringToNumber Sample.online "2"
             (Sample.names "Hansi" "Muster") Sample.as_admin eq_refl eq_refl).
  - exact (update_found_or_not_found
             Sample.SHA512 Sample.StringToNumber Sample.online "42"
             (Sample.names "Hansi" "Muster") Sample.as_admin eq_refl eq_refl).
  - exact (update_found_or_not_found
             Sample.SHA512 Sample.StringToNumber
             (Sample.offline Sample.ECONNREFUSED) "2"
             (Sample.names "Hansi" "Muster") Sample.as_admin eq_refl eq_refl).
Defined.

Lemma getUserfromId_outcomes_witness :
  Session.user (session Sample.as_hans) = Some (row_user Sample.hans_row)
  /\ fst (run Sample.online (Request.make (GET_user "2") Sample.no_body)
            Sample.as_hans)
     = res 200 (MessageUser "Successfully got user"
                  (Some (row_user Sample.hans_row)))
  /\ fst (run Sample.online (Request.make (GET_user "42") Sample.no_body)
            Sample.as_hans)
     = res 404 (Message "The requested user can not be found.")
  /\ database (snd (run Sample.online
                      (Request.make (GET_user "2") Sample.no_body)
                      Sample.as_hans))
     = database Sample.as_hans.
Proof.
  split; [reflexivity|].
  pose proof (getUserfromId_outcomes
                Sample.SHA512 Sample.StringToNumber Sample.online "2"
                Sample.no_body Sample.as_hans (row_user Sample.hans_row)
                eq_refl) as P.
  pose proof (getUserfromId_outcomes
                Sample.SHA512 Sample.StringToNumber Sample.online "42"
                Sample.no_body Sample.as_hans (row_user Sample.hans_row)
                eq_refl) as Q.
  cbv zeta in P, Q. destruct P as (P1 & P2 & _). destruct Q as (Q1 & _).
  split; [exact P1|]. split; [exact Q1|exact P2].
Defined.

Lemma getUserlist_lists_every_row_witness :
  Session.user (session Sample.as_hans) = Some (row_user Sample.hans_row)
  /\ fault Sample.online = None
  /\ run Sample.online (Request.make GET_users Sample.no_body) Sample.as_hans
     = (res 200 (MessageUserList "Successfully requested user list"
                   [row_user Sample.admin_row; row_user Sample.hans_row]),
        log SelectAll Sample.as_hans).
Proof.
  split; [reflexivity|]. split; [reflexivity|].
  exact (getUserlist_lists_every_row
           Sample.SHA512 Sample.StringToNumber Sample.online Sample.no_body
           Sample.as_hans (row_user Sample.hans_row) eq_refl eq_refl).
Defined.

Lemma login_then_getLogin_witness :
  fst (database_query Sample.online
         (SelectLogin (Some "admin"%string)
            (digest Sample.SHA512 (Some "secret"%string)))
         Sample.anonymous)
  = Success [Sample.admin_row]
  /\ fst (run Sample.online (Request.make GET_login Sample.no_body)
            (snd (run Sample.online
                    (Request.make POST_login
                       (Sample.credentials "admin" "secret"))
                    Sample.anonymous)))
     = res 200 (MessageUser "User still logged in"
                  (Some (login_user Sample.admin_row))).
Proof.
  split; [reflexivity|].
  exact (f_equal fst
           (login_then_getLogin
              Sample.SHA512 Sample.StringToNumber Sample.online Sample.online
              (Sample.credentials "admin" "secret") Sample.no_body
              Sample.anonymous Sample.admin_row eq_refl)).
Defined.

Lemma logout_then_guarded_route_witness :
  session_guarded GET_users = true
  /\ fst (run Sample.online (Request.make GET_users Sample.no_body)
            (snd (run Sample.online
                    (Request.make POST_logout Sample.no_body)
                    Sample.as_admin)))
     = res 401 (Message "Session expired, please log in again").
Proof.
  split; [reflexivity|].
  exact (f_equal fst
           (logout_then_guarded_route
              Sample.SHA512 Sample.StringToNumber Sample.online Sample.online
              Sample.no_body (Request.make GET_users Sample.no_body)
              Sample.as_admin eq_refl)).
Defined.

(** The administrator logs in on the session of another user. *)
Lemma login_ignores_prior_session_witness :
  fst (database_query Sample.online
         (SelectLogin (Some "admin"%string)
            (digest Sample.SHA512 (Some "secret"%string)))
         Sample.anonymous)
  = Success [Sample.admin_row]
  /\ session (snd (run Sample.online
                     (Request.make POST_login
                        (Sample.credentials "admin" "secret"))
                     (with_session (session Sample.as_hans)
                                   Sample.anonymous)))
     = session (snd (run Sample.online
                       (Request.make POST_login
                          (Sample.credentials "admin" "secret"))
                       Sample.anonymous)).
Proof.
  split; [reflexivity|].
  exact (proj2 (login_ignores_prior_session
                  Sample.SHA512 Sample.StringToNumber Sample.online
                  (Sample.credentials "admin" "secret") Sample.anonymous
                  (session Sample.as_hans))
           Sample.admin_row eq_refl).
Defined.

Lemma delete_then_not_found_witness :
  privileged Sample.StringToNumber Sample.as_admin = true
  /\ fault Sample.online = None
  /\ Sample.StringToNumber "2" = Num 2
  /\ fst (run Sample.online (Request.make (GET_user "2") Sample.no_body)
            (snd (run Sample.online
                    (Request.make (DELETE_user "2") Sample.no_body)
                    Sample.as_admin)))
     = res 404 (Message "The requested user can not be found.")
  /\ fst (run Sample.online (Request.make (DELETE_user "2") Sample.no_body)
            (snd (run Sample.online
                    (Request.make (DELETE_user "2") Sample.no_body)
                    Sample.as_admin)))
     = res 400 (Message "The user to be deleted could not be found").
Proof.
  split; [reflexivity|]. split; [reflexivity|]. split; [reflexivity|].
  exact (delete_then_not_found
           Sample.SHA512 Sample.StringToNumber Sample.online Sample.online
           "2" Sample.no_body Sample.no_body Sample.as_admin 2
           eq_refl eq_refl eq_refl eq_refl).
Defined.

Lemma delete_removes_only_that_id_witness :
  privileged Sample.StringToNumber Sample.as_admin = true
  /\ auto_increment
       (database (snd (run Sample.online
                         (Request.make (DELETE_user "2") Sample.no_body)
                         Sample.as_admin)))
     = auto_increment (database Sample.as_admin)
  /\ database (snd (run Sample.online
                      (Request.make (DELETE_user "42") Sample.no_body)
                      Sample.as_admin))
     = database Sample.as_admin.
Proof.
  split; [reflexivity|].
  pose proof (delete_removes_only_that_id
                Sample.SHA512 Sample.StringToNumber Sample.online "2"
                Sample.no_body Sample.as_admin eq_refl) as P.
  pose proof (delete_removes_only_that_id
                Sample.SHA512 Sample.StringToNumber Sample.online "42"
                Sample.no_body Sample.as_admin eq_refl) as Q.
  cbv zeta in P, Q. destruct P as (_ & P2 & _). destruct Q as (_ & _ & Q3).
  split; [exact P2|].
  exact (Q3 {| affectedRows := 0; insertId := 0 |} eq_refl eq_refl).
Defined.

Lemma create_then_login_witness :
  privileged Sample.StringToNumber Sample.as_admin = true
  /\ truthy (Body.firstName erika) && truthy (Body.lastName erika) = true
  /\ Body.username erika = Some "erika"%string
  /\ Body.username (Sample.credentials "erika" "geheim")
     = Some "erika"%string
  /\ Body.password (Sample.credentials "erika" "geheim")
     = Body.password erika
  /\ fault Sample.online = None
  /\ fst (run Sample.online (Request.make POST_user erika) Sample.as_admin)
     = res 201 (Message "Successfully created new user")
  /\ fst (run Sample.online
            (Request.make POST_login (Sample.credentials "erika" "geheim"))
            (snd (run Sample.online (Request.make POST_user erika)
                    Sample.as_admin)))
     = res 200
         (MessageUser "Successfully logged in"
            (Some (User.new 3 (Some "erika"%string) (Some "Erika"%string)
                     (Some "Musterfrau"%string) InvalidDate (DbInt 0))))
  /\ privileged Sample.StringToNumber
       (snd (run Sample.online
               (Request.make POST_login
                  (Sample.credentials "erika" "geheim"))
               (snd (run Sample.online (Request.make POST_user erika)
                       Sample.as_admin))))
     = false.
Proof.
  do 7 (split; [reflexivity|]).
  exact (create_then_login
           Sample.SHA512 Sample.StringToNumber Sample.online Sample.online
           erika (Sample.credentials "erika" "geheim") Sample.as_admin
           "Successfully created new user" "erika"
           eq_refl eq_refl eq_refl eq_refl eq_refl eq_refl eq_refl).
Defined.

Lemma answers_do_not_read_passwords_witness :
  GET_users <> POST_login
  /\ fst (run Sample.online (Request.make GET_users Sample.no_body)
            (with_database
               (rewrite_passwords (fun _ => "x"%string)
                                  (database Sample.as_hans))
               Sample.as_hans))
     = fst (run Sample.online (Request.make GET_users Sample.no_body)
              Sample.as_hans).
Proof.
  assert (H : GET_users <> POST_login) by discriminate.
  split; [exact H|].
  exact (answers_do_not_read_passwords
           Sample.SHA512 Sample.StringToNumber Sample.online
           (Request.make GET_users Sample.no_body) Sample.as_hans
           (fun _ => "x"%string) H).
Defined.

(** A DELETE by a standard user. *)
Lemma table_changes_need_privilege_witness :
  (role_guarded (DELETE_user "1") = false
   \/ Session.user (session Sample.as_hans) = None
   \/ exists user n,
        Session.user (session Sample.as_hans) = Some user
        /\ Number Sample.StringToNumber (User.rights user) = Num n
        /\ n < Rights.ordinal Rights.Admin)
  /\ database (snd (run Sample.online
                      (Request.make (DELETE_user "1") Sample.no_body)
                      Sample.as_hans))
     = database Sample.as_hans.
Proof.
  assert (H : role_guarded (DELETE_user "1") = false
              \/ Session.user (session Sample.as_hans) = None
              \/ exists user n,
                   Session.user (session Sample.as_hans) = Some user
                   /\ Number Sample.StringToNumber (User.rights user) = Num n
                   /\ n < Rights.ordinal Rights.Admin).
  { right. right. exists (row_user Sample.hans_row), 0.
    split; [reflexivity|]. split; [reflexivity|]. reflexivity. }
  split; [exact H|].
  exact (table_changes_need_privilege
           Sample.SHA512 Sample.StringToNumber Sample.online
           (Request.make (DELETE_user "1") Sample.no_body) Sample.as_hans H).
Defined.

(** A session whose rights are the text "admin". *)
Lemma isPrivilegedAtLeast_passes_not_a_number_witness :
  Session.user (session SampleServer.named_role)
  = Some SampleServer.named_user
  /\ Number Sample.StringToNumber (User.rights SampleServer.named_user) = NaN
  /\ privileged Sample.StringToNumber SampleServer.named_role = true
  /\ fst (run Sample.online (Request.make (DELETE_user "1") Sample.no_body)
            SampleServer.named_role)
     = res 200 (Message "Successfully deleted user ").
Proof.
  split; [reflexivity|]. split; [reflexivity|]. split; [|reflexivity].
  exact (proj2 (isPrivilegedAtLeast_passes_not_a_number
                  Sample.StringToNumber Sample.online
                  (Request.make (DELETE_user "1") Sample.no_body)
                  SampleServer.named_role SampleServer.named_user
                  Rights.Admin eq_refl eq_refl)).
Defined.

Lemma update_then_get_witness :
  privileged Sample.StringToNumber Sample.as_admin = true
  /\ Wire.firstName SampleServer.rename = VString "Hansi"
  /\ Wire.lastName SampleServer.rename = VString "Muster"
  /\ fault Sample.online = None
  /\ fst (put_user Sample.StringToNumber SampleServer.mysql Sample.online "2"
            SampleServer.rename Sample.as_admin)
     = res 200 (Message "Successfully updated user Hansi Muster")
  /\ exists row,
       In row (userlist (database Sample.as_admin))
       /\ Sample.StringToNumber "2" = Num (Row.id row)
       /\ fst (run Sample.online
                 (Request.make (GET_user "2") Sample.no_body)
                 (snd (put_user Sample.StringToNumber SampleServer.mysql
                         Sample.online "2" SampleServer.rename
                         Sample.as_admin)))
          = res 200 (MessageUser "Successfully got user"
                       (Some (row_user
                                (Row.set_names (Some "Hansi"%string)
                                   (Some "Muster"%string) row)))).
Proof.
  do 5 (split; [reflexivity|]).
  exact (update_then_get
           Sample.SHA512 Sample.StringToNumber SampleServer.mysql
           Sample.online Sample.online "2" SampleServer.rename Sample.no_body
           Sample.as_admin "Successfully updated user Hansi Muster"
           "Hansi" "Muster" eq_refl eq_refl eq_refl eq_refl eq_refl).
Defined.

Lemma create_then_list_witness :
  privileged Sample.StringToNumber Sample.as_admin = true
  /\ truthy (Body.firstName erika) && truthy (Body.lastName erika) = true
  /\ fault Sample.online = None
  /\ fst (run Sample.online (Request.make POST_user erika) Sample.as_admin)
     = res 201 (Message "Successfully created new user")
  /\ exists listed,
       fst (run Sample.online (Request.make GET_users Sample.no_body)
              (snd (run Sample.online (Request.make POST_user erika)
                      Sample.as_admin)))
       = res 200 (MessageUserList "Successfully requested user list" listed)
       /\ In (User.new 3 (Some "erika"%string) (Some "Erika"%string)
                (Some "Musterfrau"%string) (DateOf (now Sample.online))
                (DbInt 0)) listed
       /\ (forall row,
             In row (userlist (database Sample.as_admin)) ->
             In (row_user row) listed)
       /\ List.length listed = 3%nat.
Proof.
  do 4 (split; [reflexivity|]).
  exact (create_then_list
           Sample.SHA512 Sample.StringToNumber Sample.online Sample.online
           erika Sample.no_body Sample.as_admin
           "Successfully created new user" eq_refl eq_refl eq_refl eq_refl).
Defined.
